(** * Events API client: request building, execution and response decoding

    A shallow embedding of the Go package [api] (the HTTP client of the
    1Password Events API beat) together with the properties its
    specification states about it.

    The package talks to three kinds of code that live outside of it:
    the JWT helpers of package [utils], the Go standard library
    ([net/http], [net/url], [encoding/json], [time]) and the retrying
    transport behind [http.Client.Do].  Those are collected in the
    classes [Domain] and [Platform]; everything the package itself
    defines is transcribed below, function by function. *)

From Stdlib Require Import ZArith String Ascii List Bool Lia.
From Stdlib Require Import DecimalString DecimalPos DecimalN.
From stdpp Require Import base option list gmap strings.

Local Open Scope Z_scope.
Local Open Scope string_scope.

(** ** Go errors *)

(** The error values that occur: [errors.New] (also what [fmt.Errorf]
    builds when its format has no [%w]), the wrapper [fmt.Errorf] builds
    for a [%w] verb, and [*json.UnmarshalTypeError] (its [Value] and
    [Type]; offsets and field paths are diagnostic only). *)
Inductive error : Type :=
| errors_New (msg : string)
| wrapError (msg : string) (err : error)
| UnmarshalTypeError (Value : string) (Type_ : string).

Definition Error (e : error) : string :=
  match e with
  | errors_New msg => msg
  | wrapError msg _ => msg
  | UnmarshalTypeError v t =>
      "json: cannot unmarshal " +:+ v +:+ " into Go value of type " +:+ t
  end.

Definition Unwrap (e : error) : option error :=
  match e with
  | wrapError _ err => Some err
  | _ => None
  end.

(** [fmt.Errorf(prefix + "%s", s)] *)
Definition fmt_Errorf_s (prefix s : string) : error :=
  errors_New (prefix +:+ s).

(** [fmt.Errorf(prefix + "%w", err)] *)
Definition fmt_Errorf_w (prefix : string) (err : error) : error :=
  wrapError (prefix +:+ Error err) err.

(** ** JSON values *)

(** What [encoding/json] sees after lexing: a number keeps its literal. *)
#[local] Unset Elimination Schemes.
Inductive json : Type :=
| JNull
| JBool (b : bool)
| JNumber (lit : string)
| JString (s : string)
| JArray (elems : list json)
| JObject (members : list (string * json)).
#[local] Set Elimination Schemes.

(** ** The surroundings of the package *)

Class Domain := {
  (** [context.Context] (a non-nil one) *)
  context_Context : Type;
  (** the claims value [utils.ParseJWTClaims] returns *)
  Claims : Type;
  (** [*url.URL] *)
  URL : Type;
  (** [time.Time] and its zero value *)
  Time : Type;
  zeroTime : Time;
  (** everything behind [http.Client.Do]: retrying transport, connection
      pool, network and server *)
  Transport : Type;
}.

(** [http.Header]: canonical key to the values added under it. *)
Abbreviation Header := (gmap string (list string)).

(** [*http.Request], as far as [http.NewRequestWithContext] fills it from
    its arguments.  [Body] is what the body reader yields, [None] for a
    nil reader. *)
Record Request `{Domain} := {
  ctx : context_Context;
  Method : string;
  Url : URL;
  Hdr : Header;
  Body : option string;
}.

(** What the transport hands back for a request that got an answer. *)
Record Reply := {
  reply_code : Z;
  reply_status : string;
  reply_body : string;
}.

(** ** Response models (the struct types of the package) *)

Record SignInAttemptDetails := {
  SignInAttemptDetails_Value : string;
}.

Record SignInAttemptTargetUser := {
  SignInAttemptTargetUser_UUID : string;
  SignInAttemptTargetUser_Name : string;
  SignInAttemptTargetUser_Email : string;
}.

Record SignInAttemptClient := {
  SignInAttemptClient_AppName : string;
  SignInAttemptClient_AppVersion : string;
  SignInAttemptClient_PlatformName : string;
  SignInAttemptClient_PlatformVersion : string;
  SignInAttemptClient_OSName : string;
  SignInAttemptClient_OSVersion : string;
  SignInAttemptClient_IPAddress : string;
}.

(** [Details] is a pointer: [None] is nil. *)
Record SignInAttempt `{Domain} := {
  SignInAttempt_UUID : string;
  SignInAttempt_SessionUUID : string;
  SignInAttempt_Timestamp : Time;
  SignInAttempt_Country : string;
  SignInAttempt_Category : string;
  SignInAttempt_Type : string;
  SignInAttempt_Details : option SignInAttemptDetails;
  SignInAttempt_SignInAttemptTargetUser : SignInAttemptTargetUser;
  SignInAttempt_SignInAttemptClient : SignInAttemptClient;
}.

Record SignInAttemptResponse `{Domain} := {
  SignInAttemptResponse_Cursor : string;
  SignInAttemptResponse_HasMore : bool;
  SignInAttemptResponse_Items : list SignInAttempt;
}.

Record ItemUsageUser := {
  ItemUsageUser_UUID : string;
  ItemUsageUser_Name : string;
  ItemUsageUser_Email : string;
}.

Record ItemUsageClient := {
  ItemUsageClient_AppName : string;
  ItemUsageClient_AppVersion : string;
  ItemUsageClient_PlatformName : string;
  ItemUsageClient_PlatformVersion : string;
  ItemUsageClient_OSName : string;
  ItemUsageClient_OSVersion : string;
  ItemUsageClient_IPAddress : string;
}.

(** [UsedVersion] is a [uint32]. *)
Record ItemUsage `{Domain} := {
  ItemUsage_UUID : string;
  ItemUsage_Timestamp : Time;
  ItemUsage_UsedVersion : Z;
  ItemUsage_VaultUUID : string;
  ItemUsage_ItemUUID : string;
  ItemUsage_ItemUsageUser : ItemUsageUser;
  ItemUsage_ItemUsageClient : ItemUsageClient;
}.

Record ItemUsageResponse `{Domain} := {
  ItemUsageResponse_Cursor : string;
  ItemUsageResponse_HasMore : bool;
  ItemUsageResponse_Items : list ItemUsage;
}.

Record IntrospectResponse `{Domain} := {
  IntrospectResponse_UUID : string;
  IntrospectResponse_IssuedAt : Time;
  IntrospectResponse_Features : list string;
}.

(** The zero values [var x T] starts from. *)
Section Zero.
Context `{Domain}.

Definition zero_SignInAttemptTargetUser : SignInAttemptTargetUser :=
  {| SignInAttemptTargetUser_UUID := "";
     SignInAttemptTargetUser_Name := "";
     SignInAttemptTargetUser_Email := "" |}.

Definition zero_SignInAttemptClient : SignInAttemptClient :=
  {| SignInAttemptClient_AppName := "";
     SignInAttemptClient_AppVersion := "";
     SignInAttemptClient_PlatformName := "";
     SignInAttemptClient_PlatformVersion := "";
     SignInAttemptClient_OSName := "";
     SignInAttemptClient_OSVersion := "";
     SignInAttemptClient_IPAddress := "" |}.

Definition zero_SignInAttemptDetails : SignInAttemptDetails :=
  {| SignInAttemptDetails_Value := "" |}.

Definition zero_SignInAttempt : SignInAttempt :=
  {| SignInAttempt_UUID := "";
     SignInAttempt_SessionUUID := "";
     SignInAttempt_Timestamp := zeroTime;
     SignInAttempt_Country := "";
     SignInAttempt_Category := "";
     SignInAttempt_Type := "";
     SignInAttempt_Details := None;
     SignInAttempt_SignInAttemptTargetUser := zero_SignInAttemptTargetUser;
     SignInAttempt_SignInAttemptClient := zero_SignInAttemptClient |}.

Definition zero_SignInAttemptResponse : SignInAttemptResponse :=
  {| SignInAttemptResponse_Cursor := "";
     SignInAttemptResponse_HasMore := false;
     SignInAttemptResponse_Items := [] |}.

Definition zero_ItemUsageResponse : ItemUsageResponse :=
  {| ItemUsageResponse_Cursor := "";
     ItemUsageResponse_HasMore := false;
     ItemUsageResponse_Items := [] |}.

Definition zero_IntrospectResponse : IntrospectResponse :=
  {| IntrospectResponse_UUID := "";
     IntrospectResponse_IssuedAt := zeroTime;
     IntrospectResponse_Features := [] |}.
End Zero.

Class Platform `{Domain} := {
  (** package [utils] *)
  ParseJWTClaims : string → error + Claims;
  GetEventsURL : Claims → error + string;
  (** package [version] *)
  Version : string;
  (** [url.Parse], with the empty-port clean-up [NewRequestWithContext]
      applies to the result *)
  url_Parse : string → error + URL;
  (** one [http.Client.Do] through the retrying transport *)
  RoundTrip : Transport → Request → (error + Reply) * Transport;
  (** [json.NewDecoder(r).Decode(&v)] for a reader [r] that yields the
      given bytes and each of the three response types: [v] as the
      decoder leaves it, and the error it returns *)
  Decode_IntrospectResponse :
    string → IntrospectResponse → IntrospectResponse * option error;
  Decode_SignInAttemptResponse :
    string → SignInAttemptResponse → SignInAttemptResponse * option error;
  Decode_ItemUsageResponse :
    string → ItemUsageResponse → ItemUsageResponse * option error;
  (** the case folding [encoding/json] matches object keys with *)
  EqualFold : string → string → bool;
  (** invalid UTF-8 replaced by U+FFFD, as [json.Marshal] writes strings *)
  ToValidUTF8 : string → string;
  (** [time.Time]'s [UnmarshalJSON] on a value that is not [null], and
      its [MarshalJSON] *)
  Time_UnmarshalJSON : json → error + Time;
  Time_MarshalJSON : Time → error + json;
}.

(** ** The Go runtime: heap of response bodies, panics, defer *)

(** [Response.Body] of [net/http]: the bytes the server sent and whether
    [Close] has been called; a read after [Close] fails with
    [errReadOnClosedResBody] (see [Body_Read]). *)
Record ResponseBody := {
  content : string;
  closed : bool;
}.

(** [*http.Response]; [RespBody] is the address of the body. *)
Record Response := {
  StatusCode : Z;
  Status : string;
  RespBody : nat;
}.

(** What a call can change: the state behind the shared [*http.Client],
    the requests handed to [http.Client.Do] so far, and the heap of
    response bodies. *)
Record World `{Domain} := {
  transport : Transport;
  sent : list Request;
  bodies : list ResponseBody;
}.

Inductive outcome (A : Type) : Type :=
| Returned (a : A)
| Panicked (msg : string).
Arguments Returned {A} a.
Arguments Panicked {A} msg.

Definition Go `{Domain} (A : Type) : Type := World → outcome A * World.

Section Runtime.
Context `{Domain}.

#[export] Instance Go_ret : MRet Go := λ A a w, (Returned a, w).

#[export] Instance Go_bind : MBind Go := λ A B f m w,
  match m w with
  | (Returned a, w') => f a w'
  | (Panicked msg, w') => (Panicked msg, w')
  end.

Definition panic {A} (msg : string) : Go A := λ w, (Panicked msg, w).

(** [defer cleanup()] in front of [body]: the clean-up runs when [body]
    returns and when it panics. *)
Definition defer {A} (cleanup : Go unit) (body : Go A) : Go A := λ w,
  match body w with
  | (Returned a, w') =>
      match cleanup w' with
      | (Returned _, w'') => (Returned a, w'')
      | (Panicked msg, w'') => (Panicked msg, w'')
      end
  | (Panicked msg, w') => (Panicked msg, snd (cleanup w'))
  end.

Definition nil_dereference : string :=
  "runtime error: invalid memory address or nil pointer dereference".

Definition deref {A} (p : option A) : Go A :=
  match p with
  | Some a => mret a
  | None => panic nil_dereference
  end.
End Runtime.

(** ** The parts of [net/http] the package calls *)

Section NetHTTP.
Context `{Platform}.

(** [httpguts.IsTokenRune] on a byte *)
Definition IsTokenRune (c : ascii) : bool :=
  let n := nat_of_ascii c in
  ((48 <=? n)%nat && (n <=? 57)%nat)
  || ((65 <=? n)%nat && (n <=? 90)%nat)
  || ((97 <=? n)%nat && (n <=? 122)%nat)
  || existsb (Ascii.eqb c) (list_ascii_of_string "!#$%&'*+-.^_`|~").

Definition validMethod (method : string) : bool :=
  negb (String.eqb method "")
  && forallb IsTokenRune (list_ascii_of_string method).

Definition toUpper (c : ascii) : ascii :=
  let n := nat_of_ascii c in
  if ((97 <=? n)%nat && (n <=? 122)%nat) then ascii_of_nat (n - 32) else c.

Definition toLower (c : ascii) : ascii :=
  let n := nat_of_ascii c in
  if ((65 <=? n)%nat && (n <=? 90)%nat) then ascii_of_nat (n + 32) else c.

Fixpoint canonicalize (upper : bool) (s : string) : string :=
  match s with
  | EmptyString => EmptyString
  | String c s' =>
      String (if upper then toUpper c else toLower c)
             (canonicalize (Ascii.eqb c "-") s')
  end.

(** [textproto.CanonicalMIMEHeaderKey] *)
Definition CanonicalMIMEHeaderKey (s : string) : string :=
  if forallb IsTokenRune (list_ascii_of_string s)
  then canonicalize true s else s.

(** [Header.Add] and [Header.Get] *)
Definition Header_Add (key value : string) (h : Header) : Header :=
  let k := CanonicalMIMEHeaderKey key in
  <[k := (default [] (h !! k) ++ [value])%list]> h.

Definition Header_Get (key : string) (h : Header) : string :=
  match h !! CanonicalMIMEHeaderKey key with
  | Some (v :: _) => v
  | _ => ""
  end.

(** [http.NewRequestWithContext]: a request, or nil and the error. *)
Definition NewRequestWithContext (ctx : context_Context) (method url : string)
    (body : option string) : option Request * option error :=
  let method := if String.eqb method "" then "GET" else method in
  if negb (validMethod method) then
    (None, Some (errors_New ("net/http: invalid method " +:+ method)))
  else
    match url_Parse url with
    | inl err => (None, Some err)
    | inr u =>
        (Some {| ctx := ctx; Method := method; Url := u;
                 Hdr := ∅; Body := body |}, None)
    end.

(** [request.Header.Add(key, value)] through the pointer [request] *)
Definition Request_Header_Add (request : option Request)
    (key value : string) : Go (option Request) :=
  r ← deref request;
  mret (Some {| ctx := ctx r; Method := Method r; Url := Url r;
                Hdr := Header_Add key value (Hdr r); Body := Body r |}).

(** [http.Client.Do]: the request goes out; an answer comes back with
    a fresh, open body. *)
Definition send (r : Request) : Go (error + Response) := λ w,
  let '(answer, t) := RoundTrip (transport w) r in
  match answer with
  | inl err =>
      (Returned (inl err),
       {| transport := t; sent := (sent w ++ [r])%list;
          bodies := bodies w |})
  | inr reply =>
      (Returned (inr {| StatusCode := reply_code reply;
                        Status := reply_status reply;
                        RespBody := length (bodies w) |}),
       {| transport := t; sent := (sent w ++ [r])%list;
          bodies := (bodies w ++ [{| content := reply_body reply;
                                     closed := false |}])%list |})
  end.

Definition Client_Do (request : option Request) : Go (error + Response) :=
  r ← deref request;
  send r.

(** [response.Body.Close()] *)
Definition Body_Close (body : nat) : Go (option error) := λ w,
  match bodies w !! body with
  | Some b =>
      (Returned None,
       {| transport := transport w; sent := sent w;
          bodies := <[body := {| content := content b; closed := true |}]>
                      (bodies w) |})
  | None => (Panicked nil_dereference, w)
  end.

Definition errReadOnClosedResBody : error :=
  errors_New "http: read on closed response body".

(** What a reader of [response.Body] gets. *)
Definition Body_Read (body : nat) : Go (error + string) := λ w,
  match bodies w !! body with
  | Some b =>
      (Returned (if closed b then inl errReadOnClosedResBody
                 else inr (content b)), w)
  | None => (Panicked nil_dereference, w)
  end.

(** [json.NewDecoder(body).Decode(&v)]: a failed read is the decoder's
    error and leaves [v] alone. *)
Definition Decoder_Decode {T} (decode : string → T → T * option error)
    (body : nat) (v : T) : Go (T * option error) :=
  r ← Body_Read body;
  match r with
  | inl err => mret (v, Some err)
  | inr data => mret (decode data v)
  end.
End NetHTTP.

(** ** The client *)

Section Client.
Context `{Platform}.

Definition DefaultUserAgent : string :=
  "1Password Events API Beats / " +:+ Version.

Definition http_MethodGet : string := "GET".
Definition http_MethodPost : string := "POST".

(** [type Client struct { httpClient *http.Client }]: the receiver holds
    nothing but the reference to the shared [*http.Client]; what that
    client reaches is [transport] of the world, so the receiver is left
    out of the functions below. *)

Definition newAPIRequest (ctx : context_Context)
    (method bearerToken path : string) (body : option string)
    : Go (option Request * option error) :=
  match ParseJWTClaims bearerToken with
  | inl err => mret (None, Some err)
  | inr jwt =>
      match GetEventsURL jwt with
      | inl err => mret (None, Some err)
      | inr url =>
          let '(request, _) :=
            NewRequestWithContext ctx method (url +:+ path) body in
          request ← Request_Header_Add request "Authorization"
                      ("Bearer " +:+ bearerToken);
          request ← Request_Header_Add request "User-Agent"
                      DefaultUserAgent;
          mret (request, None)
      end
  end.

Definition Introspect (ctx : context_Context) (bearerToken : string)
    : Go (option IntrospectResponse * option error) :=
  '(request, err) ← newAPIRequest ctx http_MethodGet bearerToken
                      "/api/auth/introspect" None;
  match err with
  | Some err =>
      mret (None, Some (fmt_Errorf_w "failed to create new API request. " err))
  | None =>
      response ← Client_Do request;
      match response with
      | inl err => mret (None, Some err)
      | inr response =>
          _ ← Body_Close (RespBody response);
          if negb (StatusCode response =? 200)%Z then
            mret (None, Some (fmt_Errorf_s "unexpected status code: "
                                           (Status response)))
          else
            '(introspectResponse, err) ←
              Decoder_Decode Decode_IntrospectResponse
                             (RespBody response) zero_IntrospectResponse;
            match err with
            | Some err =>
                mret (None, Some (fmt_Errorf_w
                                    "failed to unmarshal response. " err))
            | None => mret (Some introspectResponse, None)
            end
      end
  end.

Definition SignInAttempts (ctx : context_Context) (bearerToken cursor : string)
    : Go (option SignInAttemptResponse * option error) :=
  '(request, err) ← newAPIRequest ctx http_MethodPost bearerToken
                      "/api/v1/signinattempts" (Some cursor);
  match err with
  | Some err =>
      mret (None, Some (fmt_Errorf_w "failed to create new API request. " err))
  | None =>
      response ← Client_Do request;
      match response with
      | inl err => mret (None, Some err)
      | inr response =>
          defer (_ ← Body_Close (RespBody response); mret ())
            (if negb (StatusCode response =? 200)%Z then
               mret (None, Some (fmt_Errorf_s "unexpected status code: "
                                              (Status response)))
             else
               '(signInAttemptResponse, err) ←
                 Decoder_Decode Decode_SignInAttemptResponse
                                (RespBody response)
                                zero_SignInAttemptResponse;
               match err with
               | Some err =>
                   mret (None, Some (fmt_Errorf_w
                                       "failed to unmarshal response. " err))
               | None => mret (Some signInAttemptResponse, None)
               end)
      end
  end.

Definition ItemUsages (ctx : context_Context) (bearerToken cursor : string)
    : Go (option ItemUsageResponse * option error) :=
  '(request, err) ← newAPIRequest ctx http_MethodPost bearerToken
                      "/api/v1/itemusages" (Some cursor);
  match err with
  | Some err =>
      mret (None, Some (fmt_Errorf_w "failed to create new API request. " err))
  | None =>
      response ← Client_Do request;
      match response with
      | inl err => mret (None, Some err)
      | inr response =>
          defer (_ ← Body_Close (RespBody response); mret ())
            (if negb (StatusCode response =? 200)%Z then
               mret (None, Some (fmt_Errorf_s "unexpected status code: "
                                              (Status response)))
             else
               '(itemUsageResponse, err) ←
                 Decoder_Decode Decode_ItemUsageResponse
                                (RespBody response) zero_ItemUsageResponse;
               match err with
               | Some err =>
                   mret (None, Some (fmt_Errorf_w
                                       "failed to unmarshal response. " err))
               | None => mret (Some itemUsageResponse, None)
               end)
      end
  end.
End Client.

(** ** [encoding/json] on a [SignInAttempt] *)

(** How storing one JSON value into a Go value ends: stored; stored as
    far as possible with an [UnmarshalTypeError] kept for later (decoding
    goes on); or given up with an error right away (an [UnmarshalJSON]
    method failed). *)
Inductive status : Type :=
| Stored
| Saved (err : error)
| Aborted (err : error).

Definition error_of (st : status) : option error :=
  match st with
  | Stored => None
  | Saved err => Some err
  | Aborted err => Some err
  end.

Section JSON.
Context `{Platform}.

(** Only the first kept error survives. *)
Definition keep (saved : option error) (st : status) : option error :=
  match saved, st with
  | Some err, _ => Some err
  | None, Saved err => Some err
  | None, _ => None
  end.

Definition kept (saved : option error) : status :=
  match saved with
  | Some err => Saved err
  | None => Stored
  end.

(** The field an object key goes to: the one of that very name, or
    else the first one equal to it under case folding. *)
Definition find_field {F} (fields : list (string * F)) (key : string)
    : option F :=
  match List.find (λ f, String.eqb (fst f) key) fields with
  | Some f => Some (snd f)
  | None =>
      match List.find (λ f, EqualFold (fst f) key) fields with
      | Some f => Some (snd f)
      | None => None
      end
  end.

(** The members of an object, in order, into a struct; keys without a
    field are skipped. *)
Fixpoint object_into {S} (fields : list (string * (json → S → S * status)))
    (members : list (string * json)) (s : S) (saved : option error)
    : S * status :=
  match members with
  | [] => (s, kept saved)
  | (key, v) :: members' =>
      match find_field fields key with
      | None => object_into fields members' s saved
      | Some store =>
          match store v s with
          | (s', Aborted err) => (s', Aborted err)
          | (s', st) => object_into fields members' s' (keep saved st)
          end
      end
  end.

Definition struct_into {S} (gotype : string)
    (fields : list (string * (json → S → S * status)))
    (v : json) (s : S) : S * status :=
  match v with
  | JNull => (s, Stored)
  | JObject members => object_into fields members s None
  | JBool _ => (s, Saved (UnmarshalTypeError "bool" gotype))
  | JNumber _ => (s, Saved (UnmarshalTypeError "number" gotype))
  | JString _ => (s, Saved (UnmarshalTypeError "string" gotype))
  | JArray _ => (s, Saved (UnmarshalTypeError "array" gotype))
  end.

Definition string_into (v : json) (s : string) : string * status :=
  match v with
  | JNull => (s, Stored)
  | JString x => (x, Stored)
  | JBool _ => (s, Saved (UnmarshalTypeError "bool" "string"))
  | JNumber _ => (s, Saved (UnmarshalTypeError "number" "string"))
  | JArray _ => (s, Saved (UnmarshalTypeError "array" "string"))
  | JObject _ => (s, Saved (UnmarshalTypeError "object" "string"))
  end.

(** [time.Time] has an [UnmarshalJSON] method: it gets every value,
    ignores [null], and its error ends the decoding. *)
Definition time_into (v : json) (t : Time) : Time * status :=
  match v with
  | JNull => (t, Stored)
  | _ =>
      match Time_UnmarshalJSON v with
      | inl err => (t, Aborted err)
      | inr t' => (t', Stored)
      end
  end.

(** A pointer: [null] makes it nil, any other value is stored into
    what it points to, allocated first when it is nil. *)
Definition pointer_into {A} (zero : A) (store : json → A → A * status)
    (v : json) (p : option A) : option A * status :=
  match v with
  | JNull => (None, Stored)
  | _ => let '(a, st) := store v (default zero p) in (Some a, st)
  end.

Definition field {S A} (get : S → A) (set : A → S → S)
    (store : json → A → A * status) (v : json) (s : S) : S * status :=
  let '(a, st) := store v (get s) in (set a s, st).

Definition set_SignInAttemptDetails_Value (x : string)
    (s : SignInAttemptDetails) : SignInAttemptDetails :=
  {| SignInAttemptDetails_Value := x |}.

Definition set_SignInAttemptTargetUser_UUID (x : string)
    (s : SignInAttemptTargetUser) : SignInAttemptTargetUser :=
  {| SignInAttemptTargetUser_UUID := x;
     SignInAttemptTargetUser_Name := SignInAttemptTargetUser_Name s;
     SignInAttemptTargetUser_Email := SignInAttemptTargetUser_Email s |}.

Definition set_SignInAttemptTargetUser_Name (x : string)
    (s : SignInAttemptTargetUser) : SignInAttemptTargetUser :=
  {| SignInAttemptTargetUser_UUID := SignInAttemptTargetUser_UUID s;
     SignInAttemptTargetUser_Name := x;
     SignInAttemptTargetUser_Email := SignInAttemptTargetUser_Email s |}.

Definition set_SignInAttemptTargetUser_Email (x : string)
    (s : SignInAttemptTargetUser) : SignInAttemptTargetUser :=
  {| SignInAttemptTargetUser_UUID := SignInAttemptTargetUser_UUID s;
     SignInAttemptTargetUser_Name := SignInAttemptTargetUser_Name s;
     SignInAttemptTargetUser_Email := x |}.

Definition set_SignInAttemptClient_AppName (x : string)
    (s : SignInAttemptClient) : SignInAttemptClient :=
  {| SignInAttemptClient_AppName := x;
     SignInAttemptClient_AppVersion := SignInAttemptClient_AppVersion s;
     SignInAttemptClient_PlatformName := SignInAttemptClient_PlatformName s;
     SignInAttemptClient_PlatformVersion :=
       SignInAttemptClient_PlatformVersion s;
     SignInAttemptClient_OSName := SignInAttemptClient_OSName s;
     SignInAttemptClient_OSVersion := SignInAttemptClient_OSVersion s;
     SignInAttemptClient_IPAddress := SignInAttemptClient_IPAddress s |}.

Definition set_SignInAttemptClient_AppVersion (x : string)
    (s : SignInAttemptClient) : SignInAttemptClient :=
  {| SignInAttemptClient_AppName := SignInAttemptClient_AppName s;
     SignInAttemptClient_AppVersion := x;
     SignInAttemptClient_PlatformName := SignInAttemptClient_PlatformName s;
     SignInAttemptClient_PlatformVersion :=
       SignInAttemptClient_PlatformVersion s;
     SignInAttemptClient_OSName := SignInAttemptClient_OSName s;
     SignInAttemptClient_OSVersion := SignInAttemptClient_OSVersion s;
     SignInAttemptClient_IPAddress := SignInAttemptClient_IPAddress s |}.

Definition set_SignInAttemptClient_PlatformName (x : string)
    (s : SignInAttemptClient) : SignInAttemptClient :=
  {| SignInAttemptClient_AppName := SignInAttemptClient_AppName s;
     SignInAttemptClient_AppVersion := SignInAttemptClient_AppVersion s;
     SignInAttemptClient_PlatformName := x;
     SignInAttemptClient_PlatformVersion :=
       SignInAttemptClient_PlatformVersion s;
     SignInAttemptClient_OSName := SignInAttemptClient_OSName s;
     SignInAttemptClient_OSVersion := SignInAttemptClient_OSVersion s;
     SignInAttemptClient_IPAddress := SignInAttemptClient_IPAddress s |}.

Definition set_SignInAttemptClient_PlatformVersion (x : string)
    (s : SignInAttemptClient) : SignInAttemptClient :=
  {| SignInAttemptClient_AppName := SignInAttemptClient_AppName s;
     SignInAttemptClient_AppVersion := SignInAttemptClient_AppVersion s;
     SignInAttemptClient_PlatformName := SignInAttemptClient_PlatformName s;
     SignInAttemptClient_PlatformVersion := x;
     SignInAttemptClient_OSName := SignInAttemptClient_OSName s;
     SignInAttemptClient_OSVersion := SignInAttemptClient_OSVersion s;
     SignInAttemptClient_IPAddress := SignInAttemptClient_IPAddress s |}.

Definition set_SignInAttemptClient_OSName (x : string)
    (s : SignInAttemptClient) : SignInAttemptClient :=
  {| SignInAttemptClient_AppName := SignInAttemptClient_AppName s;
     SignInAttemptClient_AppVersion := SignInAttemptClient_AppVersion s;
     SignInAttemptClient_PlatformName := SignInAttemptClient_PlatformName s;
     SignInAttemptClient_PlatformVersion :=
       SignInAttemptClient_PlatformVersion s;
     SignInAttemptClient_OSName := x;
     SignInAttemptClient_OSVersion := SignInAttemptClient_OSVersion s;
     SignInAttemptClient_IPAddress := SignInAttemptClient_IPAddress s |}.

Definition set_SignInAttemptClient_OSVersion (x : string)
    (s : SignInAttemptClient) : SignInAttemptClient :=
  {| SignInAttemptClient_AppName := SignInAttemptClient_AppName s;
     SignInAttemptClient_AppVersion := SignInAttemptClient_AppVersion s;
     SignInAttemptClient_PlatformName := SignInAttemptClient_PlatformName s;
     SignInAttemptClient_PlatformVersion :=
       SignInAttemptClient_PlatformVersion s;
     SignInAttemptClient_OSName := SignInAttemptClient_OSName s;
     SignInAttemptClient_OSVersion := x;
     SignInAttemptClient_IPAddress := SignInAttemptClient_IPAddress s |}.

Definition set_SignInAttemptClient_IPAddress (x : string)
    (s : SignInAttemptClient) : SignInAttemptClient :=
  {| SignInAttemptClient_AppName := SignInAttemptClient_AppName s;
     SignInAttemptClient_AppVersion := SignInAttemptClient_AppVersion s;
     SignInAttemptClient_PlatformName := SignInAttemptClient_PlatformName s;
     SignInAttemptClient_PlatformVersion :=
       SignInAttemptClient_PlatformVersion s;
     SignInAttemptClient_OSName := SignInAttemptClient_OSName s;
     SignInAttemptClient_OSVersion := SignInAttemptClient_OSVersion s;
     SignInAttemptClient_IPAddress := x |}.

Definition set_SignInAttempt_UUID (x : string)
    (s : SignInAttempt) : SignInAttempt :=
  {| SignInAttempt_UUID := x;
     SignInAttempt_SessionUUID := SignInAttempt_SessionUUID s;
     SignInAttempt_Timestamp := SignInAttempt_Timestamp s;
     SignInAttempt_Country := SignInAttempt_Country s;
     SignInAttempt_Category := SignInAttempt_Category s;
     SignInAttempt_Type := SignInAttempt_Type s;
     SignInAttempt_Details := SignInAttempt_Details s;
     SignInAttempt_SignInAttemptTargetUser :=
       SignInAttempt_SignInAttemptTargetUser s;
     SignInAttempt_SignInAttemptClient :=
       SignInAttempt_SignInAttemptClient s |}.

Definition set_SignInAttempt_SessionUUID (x : string)
    (s : SignInAttempt) : SignInAttempt :=
  {| SignInAttempt_UUID := SignInAttempt_UUID s;
     SignInAttempt_SessionUUID := x;
     SignInAttempt_Timestamp := SignInAttempt_Timestamp s;
     SignInAttempt_Country := SignInAttempt_Country s;
     SignInAttempt_Category := SignInAttempt_Category s;
     SignInAttempt_Type := SignInAttempt_Type s;
     SignInAttempt_Details := SignInAttempt_Details s;
     SignInAttempt_SignInAttemptTargetUser :=
       SignInAttempt_SignInAttemptTargetUser s;
     SignInAttempt_SignInAttemptClient :=
       SignInAttempt_SignInAttemptClient s |}.

Definition set_SignInAttempt_Timestamp (x : Time)
    (s : SignInAttempt) : SignInAttempt :=
  {| SignInAttempt_UUID := SignInAttempt_UUID s;
     SignInAttempt_SessionUUID := SignInAttempt_SessionUUID s;
     SignInAttempt_Timestamp := x;
     SignInAttempt_Country := SignInAttempt_Country s;
     SignInAttempt_Category := SignInAttempt_Category s;
     SignInAttempt_Type := SignInAttempt_Type s;
     SignInAttempt_Details := SignInAttempt_Details s;
     SignInAttempt_SignInAttemptTargetUser :=
       SignInAttempt_SignInAttemptTargetUser s;
     SignInAttempt_SignInAttemptClient :=
       SignInAttempt_SignInAttemptClient s |}.

Definition set_SignInAttempt_Country (x : string)
    (s : SignInAttempt) : SignInAttempt :=
  {| SignInAttempt_UUID := SignInAttempt_UUID s;
     SignInAttempt_SessionUUID := SignInAttempt_SessionUUID s;
     SignInAttempt_Timestamp := SignInAttempt_Timestamp s;
     SignInAttempt_Country := x;
     SignInAttempt_Category := SignInAttempt_Category s;
     SignInAttempt_Type := SignInAttempt_Type s;
     SignInAttempt_Details := SignInAttempt_Details s;
     SignInAttempt_SignInAttemptTargetUser :=
       SignInAttempt_SignInAttemptTargetUser s;
     SignInAttempt_SignInAttemptClient :=
       SignInAttempt_SignInAttemptClient s |}.

Definition set_SignInAttempt_Category (x : string)
    (s : SignInAttempt) : SignInAttempt :=
  {| SignInAttempt_UUID := SignInAttempt_UUID s;
     SignInAttempt_SessionUUID := SignInAttempt_SessionUUID s;
     SignInAttempt_Timestamp := SignInAttempt_Timestamp s;
     SignInAttempt_Country := SignInAttempt_Country s;
     SignInAttempt_Category := x;
     SignInAttempt_Type := SignInAttempt_Type s;
     SignInAttempt_Details := SignInAttempt_Details s;
     SignInAttempt_SignInAttemptTargetUser :=
       SignInAttempt_SignInAttemptTargetUser s;
     SignInAttempt_SignInAttemptClient :=
       SignInAttempt_SignInAttemptClient s |}.

Definition set_SignInAttempt_Type (x : string)
    (s : SignInAttempt) : SignInAttempt :=
  {| SignInAttempt_UUID := SignInAttempt_UUID s;
     SignInAttempt_SessionUUID := SignInAttempt_SessionUUID s;
     SignInAttempt_Timestamp := SignInAttempt_Timestamp s;
     SignInAttempt_Country := SignInAttempt_Country s;
     SignInAttempt_Category := SignInAttempt_Category s;
     SignInAttempt_Type := x;
     SignInAttempt_Details := SignInAttempt_Details s;
     SignInAttempt_SignInAttemptTargetUser :=
       SignInAttempt_SignInAttemptTargetUser s;
     SignInAttempt_SignInAttemptClient :=
       SignInAttempt_SignInAttemptClient s |}.

Definition set_SignInAttempt_Details (x : option SignInAttemptDetails)
    (s : SignInAttempt) : SignInAttempt :=
  {| SignInAttempt_UUID := SignInAttempt_UUID s;
     SignInAttempt_SessionUUID := SignInAttempt_SessionUUID s;
     SignInAttempt_Timestamp := SignInAttempt_Timestamp s;
     SignInAttempt_Country := SignInAttempt_Country s;
     SignInAttempt_Category := SignInAttempt_Category s;
     SignInAttempt_Type := SignInAttempt_Type s;
     SignInAttempt_Details := x;
     SignInAttempt_SignInAttemptTargetUser :=
       SignInAttempt_SignInAttemptTargetUser s;
     SignInAttempt_SignInAttemptClient :=
       SignInAttempt_SignInAttemptClient s |}.

Definition set_SignInAttempt_SignInAttemptTargetUser
    (x : SignInAttemptTargetUser) (s : SignInAttempt) : SignInAttempt :=
  {| SignInAttempt_UUID := SignInAttempt_UUID s;
     SignInAttempt_SessionUUID := SignInAttempt_SessionUUID s;
     SignInAttempt_Timestamp := SignInAttempt_Timestamp s;
     SignInAttempt_Country := SignInAttempt_Country s;
     SignInAttempt_Category := SignInAttempt_Category s;
     SignInAttempt_Type := SignInAttempt_Type s;
     SignInAttempt_Details := SignInAttempt_Details s;
     SignInAttempt_SignInAttemptTargetUser := x;
     SignInAttempt_SignInAttemptClient :=
       SignInAttempt_SignInAttemptClient s |}.

Definition set_SignInAttempt_SignInAttemptClient (x : SignInAttemptClient)
    (s : SignInAttempt) : SignInAttempt :=
  {| SignInAttempt_UUID := SignInAttempt_UUID s;
     SignInAttempt_SessionUUID := SignInAttempt_SessionUUID s;
     SignInAttempt_Timestamp := SignInAttempt_Timestamp s;
     SignInAttempt_Country := SignInAttempt_Country s;
     SignInAttempt_Category := SignInAttempt_Category s;
     SignInAttempt_Type := SignInAttempt_Type s;
     SignInAttempt_Details := SignInAttempt_Details s;
     SignInAttempt_SignInAttemptTargetUser :=
       SignInAttempt_SignInAttemptTargetUser s;
     SignInAttempt_SignInAttemptClient := x |}.

Definition SignInAttemptDetails_fields
  : list (string
          * (json → SignInAttemptDetails
             → SignInAttemptDetails * status)) :=
  [ ("value",
     field SignInAttemptDetails_Value
       set_SignInAttemptDetails_Value
       string_into) ].

Definition unmarshal_SignInAttemptDetails
  : json → SignInAttemptDetails → SignInAttemptDetails * status :=
  struct_into "api.SignInAttemptDetails" SignInAttemptDetails_fields.

Definition SignInAttemptTargetUser_fields
  : list (string
          * (json → SignInAttemptTargetUser
             → SignInAttemptTargetUser * status)) :=
  [ ("uuid",
     field SignInAttemptTargetUser_UUID
       set_SignInAttemptTargetUser_UUID
       string_into);
    ("name",
     field SignInAttemptTargetUser_Name
       set_SignInAttemptTargetUser_Name
       string_into);
    ("email",
     field SignInAttemptTargetUser_Email
       set_SignInAttemptTargetUser_Email
       string_into) ].

Definition unmarshal_SignInAttemptTargetUser
  : json → SignInAttemptTargetUser → SignInAttemptTargetUser * status :=
  struct_into "api.SignInAttemptTargetUser" SignInAttemptTargetUser_fields.

Definition SignInAttemptClient_fields
  : list (string
          * (json → SignInAttemptClient → SignInAttemptClient * status)) :=
  [ ("app_name",
     field SignInAttemptClient_AppName
       set_SignInAttemptClient_AppName
       string_into);
    ("app_version",
     field SignInAttemptClient_AppVersion
       set_SignInAttemptClient_AppVersion
       string_into);
    ("platform_name",
     field SignInAttemptClient_PlatformName
       set_SignInAttemptClient_PlatformName
       string_into);
    ("platform_version",
     field SignInAttemptClient_PlatformVersion
       set_SignInAttemptClient_PlatformVersion
       string_into);
    ("os_name",
     field SignInAttemptClient_OSName
       set_SignInAttemptClient_OSName
       string_into);
    ("os_version",
     field SignInAttemptClient_OSVersion
       set_SignInAttemptClient_OSVersion
       string_into);
    ("ip_address",
     field SignInAttemptClient_IPAddress
       set_SignInAttemptClient_IPAddress
       string_into) ].

Definition unmarshal_SignInAttemptClient
  : json → SignInAttemptClient → SignInAttemptClient * status :=
  struct_into "api.SignInAttemptClient" SignInAttemptClient_fields.

Definition SignInAttempt_fields
  : list (string
          * (json → SignInAttempt → SignInAttempt * status)) :=
  [ ("uuid", field SignInAttempt_UUID set_SignInAttempt_UUID string_into);
    ("session_uuid",
     field SignInAttempt_SessionUUID
       set_SignInAttempt_SessionUUID
       string_into);
    ("timestamp",
     field SignInAttempt_Timestamp
       set_SignInAttempt_Timestamp
       time_into);
    ("country",
     field SignInAttempt_Country
       set_SignInAttempt_Country
       string_into);
    ("category",
     field SignInAttempt_Category
       set_SignInAttempt_Category
       string_into);
    ("type", field SignInAttempt_Type set_SignInAttempt_Type string_into);
    ("details",
     field SignInAttempt_Details
       set_SignInAttempt_Details
       (pointer_into zero_SignInAttemptDetails
          unmarshal_SignInAttemptDetails));
    ("target_user",
     field SignInAttempt_SignInAttemptTargetUser
       set_SignInAttempt_SignInAttemptTargetUser
       unmarshal_SignInAttemptTargetUser);
    ("client",
     field SignInAttempt_SignInAttemptClient
       set_SignInAttempt_SignInAttemptClient
       unmarshal_SignInAttemptClient) ].

Definition unmarshal_SignInAttempt
  : json → SignInAttempt → SignInAttempt * status :=
  struct_into "api.SignInAttempt" SignInAttempt_fields.

(** [json.Unmarshal] of a value into a fresh [SignInAttempt] *)
Definition Unmarshal_SignInAttempt (v : json)
    : SignInAttempt * option error :=
  let '(s, st) := unmarshal_SignInAttempt v zero_SignInAttempt in
  (s, error_of st).

Definition marshal_string (s : string) : json := JString (ToValidUTF8 s).

Definition marshal_SignInAttemptDetails (s : SignInAttemptDetails)
  : json :=
  JObject [ ("value", marshal_string (SignInAttemptDetails_Value s)) ].

Definition marshal_SignInAttemptTargetUser (s : SignInAttemptTargetUser)
  : json :=
  JObject [ ("uuid", marshal_string (SignInAttemptTargetUser_UUID s));
            ("name", marshal_string (SignInAttemptTargetUser_Name s));
            ("email", marshal_string (SignInAttemptTargetUser_Email s)) ].

Definition marshal_SignInAttemptClient (s : SignInAttemptClient)
  : json :=
  JObject [ ("app_name", marshal_string (SignInAttemptClient_AppName s));
            ("app_version", marshal_string (SignInAttemptClient_AppVersion s));
            ("platform_name",
             marshal_string (SignInAttemptClient_PlatformName s));
            ("platform_version",
             marshal_string (SignInAttemptClient_PlatformVersion s));
            ("os_name", marshal_string (SignInAttemptClient_OSName s));
            ("os_version", marshal_string (SignInAttemptClient_OSVersion s));
            ("ip_address", marshal_string (SignInAttemptClient_IPAddress s)) ].

Definition marshal_pointer {A} (marshal : A → json) (p : option A) : json :=
  match p with
  | None => JNull
  | Some a => marshal a
  end.

(** [json.Marshal] of a [SignInAttempt]: every field is written; only
    the time stamp can fail. *)
Definition Marshal_SignInAttempt (s : SignInAttempt) : error + json :=
  match Time_MarshalJSON (SignInAttempt_Timestamp s) with
  | inl err =>
      inl (fmt_Errorf_w
             "json: error calling MarshalJSON for type time.Time: " err)
  | inr timestamp =>
      inr (JObject
        [ ("uuid", marshal_string (SignInAttempt_UUID s));
          ("session_uuid", marshal_string (SignInAttempt_SessionUUID s));
          ("timestamp", timestamp);
          ("country", marshal_string (SignInAttempt_Country s));
          ("category", marshal_string (SignInAttempt_Category s));
          ("type", marshal_string (SignInAttempt_Type s));
          ("details", marshal_pointer marshal_SignInAttemptDetails
                                      (SignInAttempt_Details s));
          ("target_user", marshal_SignInAttemptTargetUser
                            (SignInAttempt_SignInAttemptTargetUser s));
          ("client", marshal_SignInAttemptClient
                       (SignInAttempt_SignInAttemptClient s)) ])
  end.
End JSON.

(** ** [encoding/json] on an [ItemUsage] *)

Section ItemUsageJSON.
Context `{Platform}.

Definition zero_ItemUsageUser : ItemUsageUser :=
  {| ItemUsageUser_UUID := "";
     ItemUsageUser_Name := "";
     ItemUsageUser_Email := "" |}.

Definition zero_ItemUsageClient : ItemUsageClient :=
  {| ItemUsageClient_AppName := "";
     ItemUsageClient_AppVersion := "";
     ItemUsageClient_PlatformName := "";
     ItemUsageClient_PlatformVersion := "";
     ItemUsageClient_OSName := "";
     ItemUsageClient_OSVersion := "";
     ItemUsageClient_IPAddress := "" |}.

Definition zero_ItemUsage : ItemUsage :=
  {| ItemUsage_UUID := "";
     ItemUsage_Timestamp := zeroTime;
     ItemUsage_UsedVersion := 0;
     ItemUsage_VaultUUID := "";
     ItemUsage_ItemUUID := "";
     ItemUsage_ItemUsageUser := zero_ItemUsageUser;
     ItemUsage_ItemUsageClient := zero_ItemUsageClient |}.

Definition math_MaxUint32 : Z := 4294967295.

(** [strconv.ParseUint(lit, 10, 64)] followed by the overflow check for
    a [uint32]: decimal digits only, at least one, and a value that
    fits. *)
Definition ParseUint32 (lit : string) : option Z :=
  if String.eqb lit "" then None
  else
    match NilEmpty.uint_of_string lit with
    | None => None
    | Some d =>
        let n := Z.of_N (N.of_uint d) in
        if (n <=? math_MaxUint32)%Z then Some n else None
    end.

(** [strconv.AppendUint(b, n, 10)] *)
Definition FormatUint (n : Z) : string :=
  NilEmpty.string_of_uint (N.to_uint (Z.to_N n)).

Definition uint32_into (v : json) (n : Z) : Z * status :=
  match v with
  | JNull => (n, Stored)
  | JNumber lit =>
      match ParseUint32 lit with
      | Some n' => (n', Stored)
      | None => (n, Saved (UnmarshalTypeError ("number " +:+ lit) "uint32"))
      end
  | JBool _ => (n, Saved (UnmarshalTypeError "bool" "uint32"))
  | JString _ => (n, Saved (UnmarshalTypeError "string" "uint32"))
  | JArray _ => (n, Saved (UnmarshalTypeError "array" "uint32"))
  | JObject _ => (n, Saved (UnmarshalTypeError "object" "uint32"))
  end.

Definition set_ItemUsageUser_UUID (x : string)
    (s : ItemUsageUser) : ItemUsageUser :=
  {| ItemUsageUser_UUID := x;
     ItemUsageUser_Name := ItemUsageUser_Name s;
     ItemUsageUser_Email := ItemUsageUser_Email s |}.

Definition set_ItemUsageUser_Name (x : string)
    (s : ItemUsageUser) : ItemUsageUser :=
  {| ItemUsageUser_UUID := ItemUsageUser_UUID s;
     ItemUsageUser_Name := x;
     ItemUsageUser_Email := ItemUsageUser_Email s |}.

Definition set_ItemUsageUser_Email (x : string)
    (s : ItemUsageUser) : ItemUsageUser :=
  {| ItemUsageUser_UUID := ItemUsageUser_UUID s;
     ItemUsageUser_Name := ItemUsageUser_Name s;
     ItemUsageUser_Email := x |}.

Definition set_ItemUsageClient_AppName (x : string)
    (s : ItemUsageClient) : ItemUsageClient :=
  {| ItemUsageClient_AppName := x;
     ItemUsageClient_AppVersion := ItemUsageClient_AppVersion s;
     ItemUsageClient_PlatformName := ItemUsageClient_PlatformName s;
     ItemUsageClient_PlatformVersion := ItemUsageClient_PlatformVersion s;
     ItemUsageClient_OSName := ItemUsageClient_OSName s;
     ItemUsageClient_OSVersion := ItemUsageClient_OSVersion s;
     ItemUsageClient_IPAddress := ItemUsageClient_IPAddress s |}.

Definition set_ItemUsageClient_AppVersion (x : string)
    (s : ItemUsageClient) : ItemUsageClient :=
  {| ItemUsageClient_AppName := ItemUsageClient_AppName s;
     ItemUsageClient_AppVersion := x;
     ItemUsageClient_PlatformName := ItemUsageClient_PlatformName s;
     ItemUsageClient_PlatformVersion := ItemUsageClient_PlatformVersion s;
     ItemUsageClient_OSName := ItemUsageClient_OSName s;
     ItemUsageClient_OSVersion := ItemUsageClient_OSVersion s;
     ItemUsageClient_IPAddress := ItemUsageClient_IPAddress s |}.

Definition set_ItemUsageClient_PlatformName (x : string)
    (s : ItemUsageClient) : ItemUsageClient :=
  {| ItemUsageClient_AppName := ItemUsageClient_AppName s;
     ItemUsageClient_AppVersion := ItemUsageClient_AppVersion s;
     ItemUsageClient_PlatformName := x;
     ItemUsageClient_PlatformVersion := ItemUsageClient_PlatformVersion s;
     ItemUsageClient_OSName := ItemUsageClient_OSName s;
     ItemUsageClient_OSVersion := ItemUsageClient_OSVersion s;
     ItemUsageClient_IPAddress := ItemUsageClient_IPAddress s |}.

Definition set_ItemUsageClient_PlatformVersion (x : string)
    (s : ItemUsageClient) : ItemUsageClient :=
  {| ItemUsageClient_AppName := ItemUsageClient_AppName s;
     ItemUsageClient_AppVersion := ItemUsageClient_AppVersion s;
     ItemUsageClient_PlatformName := ItemUsageClient_PlatformName s;
     ItemUsageClient_PlatformVersion := x;
     ItemUsageClient_OSName := ItemUsageClient_OSName s;
     ItemUsageClient_OSVersion := ItemUsageClient_OSVersion s;
     ItemUsageClient_IPAddress := ItemUsageClient_IPAddress s |}.

Definition set_ItemUsageClient_OSName (x : string)
    (s : ItemUsageClient) : ItemUsageClient :=
  {| ItemUsageClient_AppName := ItemUsageClient_AppName s;
     ItemUsageClient_AppVersion := ItemUsageClient_AppVersion s;
     ItemUsageClient_PlatformName := ItemUsageClient_PlatformName s;
     ItemUsageClient_PlatformVersion := ItemUsageClient_PlatformVersion s;
     ItemUsageClient_OSName := x;
     ItemUsageClient_OSVersion := ItemUsageClient_OSVersion s;
     ItemUsageClient_IPAddress := ItemUsageClient_IPAddress s |}.

Definition set_ItemUsageClient_OSVersion (x : string)
    (s : ItemUsageClient) : ItemUsageClient :=
  {| ItemUsageClient_AppName := ItemUsageClient_AppName s;
     ItemUsageClient_AppVersion := ItemUsageClient_AppVersion s;
     ItemUsageClient_PlatformName := ItemUsageClient_PlatformName s;
     ItemUsageClient_PlatformVersion := ItemUsageClient_PlatformVersion s;
     ItemUsageClient_OSName := ItemUsageClient_OSName s;
     ItemUsageClient_OSVersion := x;
     ItemUsageClient_IPAddress := ItemUsageClient_IPAddress s |}.

Definition set_ItemUsageClient_IPAddress (x : string)
    (s : ItemUsageClient) : ItemUsageClient :=
  {| ItemUsageClient_AppName := ItemUsageClient_AppName s;
     ItemUsageClient_AppVersion := ItemUsageClient_AppVersion s;
     ItemUsageClient_PlatformName := ItemUsageClient_PlatformName s;
     ItemUsageClient_PlatformVersion := ItemUsageClient_PlatformVersion s;
     ItemUsageClient_OSName := ItemUsageClient_OSName s;
     ItemUsageClient_OSVersion := ItemUsageClient_OSVersion s;
     ItemUsageClient_IPAddress := x |}.

Definition set_ItemUsage_UUID (x : string)
    (s : ItemUsage) : ItemUsage :=
  {| ItemUsage_UUID := x;
     ItemUsage_Timestamp := ItemUsage_Timestamp s;
     ItemUsage_UsedVersion := ItemUsage_UsedVersion s;
     ItemUsage_VaultUUID := ItemUsage_VaultUUID s;
     ItemUsage_ItemUUID := ItemUsage_ItemUUID s;
     ItemUsage_ItemUsageUser := ItemUsage_ItemUsageUser s;
     ItemUsage_ItemUsageClient := ItemUsage_ItemUsageClient s |}.

Definition set_ItemUsage_Timestamp (x : Time)
    (s : ItemUsage) : ItemUsage :=
  {| ItemUsage_UUID := ItemUsage_UUID s;
     ItemUsage_Timestamp := x;
     ItemUsage_UsedVersion := ItemUsage_UsedVersion s;
     ItemUsage_VaultUUID := ItemUsage_VaultUUID s;
     ItemUsage_ItemUUID := ItemUsage_ItemUUID s;
     ItemUsage_ItemUsageUser := ItemUsage_ItemUsageUser s;
     ItemUsage_ItemUsageClient := ItemUsage_ItemUsageClient s |}.

Definition set_ItemUsage_UsedVersion (x : Z)
    (s : ItemUsage) : ItemUsage :=
  {| ItemUsage_UUID := ItemUsage_UUID s;
     ItemUsage_Timestamp := ItemUsage_Timestamp s;
     ItemUsage_UsedVersion := x;
     ItemUsage_VaultUUID := ItemUsage_VaultUUID s;
     ItemUsage_ItemUUID := ItemUsage_ItemUUID s;
     ItemUsage_ItemUsageUser := ItemUsage_ItemUsageUser s;
     ItemUsage_ItemUsageClient := ItemUsage_ItemUsageClient s |}.

Definition set_ItemUsage_VaultUUID (x : string)
    (s : ItemUsage) : ItemUsage :=
  {| ItemUsage_UUID := ItemUsage_UUID s;
     ItemUsage_Timestamp := ItemUsage_Timestamp s;
     ItemUsage_UsedVersion := ItemUsage_UsedVersion s;
     ItemUsage_VaultUUID := x;
     ItemUsage_ItemUUID := ItemUsage_ItemUUID s;
     ItemUsage_ItemUsageUser := ItemUsage_ItemUsageUser s;
     ItemUsage_ItemUsageClient := ItemUsage_ItemUsageClient s |}.

Definition set_ItemUsage_ItemUUID (x : string)
    (s : ItemUsage) : ItemUsage :=
  {| ItemUsage_UUID := ItemUsage_UUID s;
     ItemUsage_Timestamp := ItemUsage_Timestamp s;
     ItemUsage_UsedVersion := ItemUsage_UsedVersion s;
     ItemUsage_VaultUUID := ItemUsage_VaultUUID s;
     ItemUsage_ItemUUID := x;
     ItemUsage_ItemUsageUser := ItemUsage_ItemUsageUser s;
     ItemUsage_ItemUsageClient := ItemUsage_ItemUsageClient s |}.

Definition set_ItemUsage_ItemUsageUser (x : ItemUsageUser)
    (s : ItemUsage) : ItemUsage :=
  {| ItemUsage_UUID := ItemUsage_UUID s;
     ItemUsage_Timestamp := ItemUsage_Timestamp s;
     ItemUsage_UsedVersion := ItemUsage_UsedVersion s;
     ItemUsage_VaultUUID := ItemUsage_VaultUUID s;
     ItemUsage_ItemUUID := ItemUsage_ItemUUID s;
     ItemUsage_ItemUsageUser := x;
     ItemUsage_ItemUsageClient := ItemUsage_ItemUsageClient s |}.

Definition set_ItemUsage_ItemUsageClient (x : ItemUsageClient)
    (s : ItemUsage) : ItemUsage :=
  {| ItemUsage_UUID := ItemUsage_UUID s;
     ItemUsage_Timestamp := ItemUsage_Timestamp s;
     ItemUsage_UsedVersion := ItemUsage_UsedVersion s;
     ItemUsage_VaultUUID := ItemUsage_VaultUUID s;
     ItemUsage_ItemUUID := ItemUsage_ItemUUID s;
     ItemUsage_ItemUsageUser := ItemUsage_ItemUsageUser s;
     ItemUsage_ItemUsageClient := x |}.

Definition ItemUsageUser_fields
  : list (string * (json → ItemUsageUser → ItemUsageUser * status)) :=
  [ ("uuid", field ItemUsageUser_UUID set_ItemUsageUser_UUID string_into);
    ("name", field ItemUsageUser_Name set_ItemUsageUser_Name string_into);
    ("email", field ItemUsageUser_Email set_ItemUsageUser_Email string_into) ].

Definition unmarshal_ItemUsageUser
  : json → ItemUsageUser → ItemUsageUser * status :=
  struct_into "api.ItemUsageUser" ItemUsageUser_fields.

Definition ItemUsageClient_fields
  : list (string * (json → ItemUsageClient → ItemUsageClient * status)) :=
  [ ("app_name",
     field ItemUsageClient_AppName
       set_ItemUsageClient_AppName
       string_into);
    ("app_version",
     field ItemUsageClient_AppVersion
       set_ItemUsageClient_AppVersion
       string_into);
    ("platform_name",
     field ItemUsageClient_PlatformName
       set_ItemUsageClient_PlatformName
       string_into);
    ("platform_version",
     field ItemUsageClient_PlatformVersion
       set_ItemUsageClient_PlatformVersion
       string_into);
    ("os_name",
     field ItemUsageClient_OSName
       set_ItemUsageClient_OSName
       string_into);
    ("os_version",
     field ItemUsageClient_OSVersion
       set_ItemUsageClient_OSVersion
       string_into);
    ("ip_address",
     field ItemUsageClient_IPAddress
       set_ItemUsageClient_IPAddress
       string_into) ].

Definition unmarshal_ItemUsageClient
  : json → ItemUsageClient → ItemUsageClient * status :=
  struct_into "api.ItemUsageClient" ItemUsageClient_fields.

Definition ItemUsage_fields
  : list (string * (json → ItemUsage → ItemUsage * status)) :=
  [ ("uuid", field ItemUsage_UUID set_ItemUsage_UUID string_into);
    ("timestamp",
     field ItemUsage_Timestamp
       set_ItemUsage_Timestamp
       time_into);
    ("used_version",
     field ItemUsage_UsedVersion
       set_ItemUsage_UsedVersion
       uint32_into);
    ("vault_uuid",
     field ItemUsage_VaultUUID
       set_ItemUsage_VaultUUID
       string_into);
    ("item_uuid",
     field ItemUsage_ItemUUID
       set_ItemUsage_ItemUUID
       string_into);
    ("user",
     field ItemUsage_ItemUsageUser
       set_ItemUsage_ItemUsageUser
       unmarshal_ItemUsageUser);
    ("client",
     field ItemUsage_ItemUsageClient
       set_ItemUsage_ItemUsageClient
       unmarshal_ItemUsageClient) ].

Definition unmarshal_ItemUsage
  : json → ItemUsage → ItemUsage * status :=
  struct_into "api.ItemUsage" ItemUsage_fields.

(** [json.Unmarshal] of a value into a fresh [ItemUsage] *)
Definition Unmarshal_ItemUsage (v : json) : ItemUsage * option error :=
  let '(s, st) := unmarshal_ItemUsage v zero_ItemUsage in
  (s, error_of st).

Definition marshal_ItemUsageUser (s : ItemUsageUser)
  : json :=
  JObject [ ("uuid", marshal_string (ItemUsageUser_UUID s));
            ("name", marshal_string (ItemUsageUser_Name s));
            ("email", marshal_string (ItemUsageUser_Email s)) ].

Definition marshal_ItemUsageClient (s : ItemUsageClient)
  : json :=
  JObject [ ("app_name", marshal_string (ItemUsageClient_AppName s));
            ("app_version", marshal_string (ItemUsageClient_AppVersion s));
            ("platform_name", marshal_string (ItemUsageClient_PlatformName s));
            ("platform_version",
             marshal_string (ItemUsageClient_PlatformVersion s));
            ("os_name", marshal_string (ItemUsageClient_OSName s));
            ("os_version", marshal_string (ItemUsageClient_OSVersion s));
            ("ip_address", marshal_string (ItemUsageClient_IPAddress s)) ].

(** [json.Marshal] of an [ItemUsage]: every field is written; only the
    time stamp can fail. *)
Definition Marshal_ItemUsage (s : ItemUsage) : error + json :=
  match Time_MarshalJSON (ItemUsage_Timestamp s) with
  | inl err =>
      inl (fmt_Errorf_w
             "json: error calling MarshalJSON for type time.Time: " err)
  | inr timestamp =>
      inr (JObject
        [ ("uuid", marshal_string (ItemUsage_UUID s));
          ("timestamp", timestamp);
          ("used_version", JNumber (FormatUint (ItemUsage_UsedVersion s)));
          ("vault_uuid", marshal_string (ItemUsage_VaultUUID s));
          ("item_uuid", marshal_string (ItemUsage_ItemUUID s));
          ("user", marshal_ItemUsageUser (ItemUsage_ItemUsageUser s));
          ("client", marshal_ItemUsageClient (ItemUsage_ItemUsageClient s)) ])
  end.
End ItemUsageJSON.

(** ** Building the client *)

(** The parts of [net/http], [crypto/tls] and [go-retryablehttp] that
    [NewClient] goes through.  What these libraries keep in fields the
    package never touches is left abstract. *)
Class HTTPTypes := {
  (** a logger as the retrying client holds it; [NewClient] is given one *)
  Logger : Type;
  (** the fields of [tls.Config] besides [InsecureSkipVerify], and their
      zero values *)
  TLSSettings : Type;
  zero_TLSSettings : TLSSettings;
  (** the fields of [http.Transport] besides [TLSClientConfig] *)
  TransportSettings : Type;
  (** the fields of [http.Client] besides [Transport], and their zero
      values *)
  ClientSettings : Type;
  zero_ClientSettings : ClientSettings;
  (** the fields of [retryablehttp.Client] besides [HTTPClient] and
      [Logger]: retry counts, waits, hooks *)
  RetrySettings : Type;
  (** round trippers of other types *)
  OtherRoundTripper : Type;
}.

Record tls_Config `{HTTPTypes} := {
  InsecureSkipVerify : bool;
  tls_settings : TLSSettings;
}.

Record http_Transport `{HTTPTypes} := {
  TLSClientConfig : option tls_Config;
  transport_settings : TransportSettings;
}.

(** [http.Client], the [http.RoundTripper] values its [Transport] field
    can hold (none for a nil interface), and [retryablehttp.Client]. *)
#[local] Unset Elimination Schemes.
Inductive http_Client `{HTTPTypes} : Type :=
| Build_http_Client (Transport : option RoundTripper)
                    (client_settings : ClientSettings)
with RoundTripper `{HTTPTypes} : Type :=
| http_Transport_RoundTripper (t : http_Transport)
| retryablehttp_RoundTripper (c : retryablehttp_Client)
| other_RoundTripper (o : OtherRoundTripper)
with retryablehttp_Client `{HTTPTypes} : Type :=
| Build_retryablehttp_Client (HTTPClient : http_Client)
                             (retry_Logger : Logger)
                             (retry_settings : RetrySettings).
#[local] Set Elimination Schemes.

Class HTTPLibrary `{HTTPTypes} := {
  (** [retryablehttp.NewClient()] *)
  retryablehttp_NewClient : retryablehttp_Client;
}.

(** [type Client struct { httpClient *http.Client }] *)
Record Client `{HTTPTypes} := {
  httpClient : http_Client;
}.

Section NewClient.
Context `{HTTPLibrary}.

Definition http_Client_Transport (c : http_Client) : option RoundTripper :=
  match c with
  | Build_http_Client t _ => t
  end.

Definition client_settings (c : http_Client) : ClientSettings :=
  match c with
  | Build_http_Client _ o => o
  end.

Definition retry_HTTPClient (c : retryablehttp_Client) : http_Client :=
  match c with
  | Build_retryablehttp_Client h _ _ => h
  end.

Definition retry_Logger (c : retryablehttp_Client) : Logger :=
  match c with
  | Build_retryablehttp_Client _ l _ => l
  end.

Definition retry_settings (c : retryablehttp_Client) : RetrySettings :=
  match c with
  | Build_retryablehttp_Client _ _ r => r
  end.

(** [retryablehttp.Client.StandardClient]: a plain [http.Client] whose
    transport is the retrying client. *)
Definition StandardClient (c : retryablehttp_Client) : http_Client :=
  Build_http_Client (Some (retryablehttp_RoundTripper c)) zero_ClientSettings.

Definition NewClient (logger : Logger) (insecureSkipVerify : bool)
    : option Client * option error :=
  let retryHTTPClient := retryablehttp_NewClient in
  let retryHTTPClient :=
    Build_retryablehttp_Client (retry_HTTPClient retryHTTPClient) logger
                               (retry_settings retryHTTPClient) in
  let retryHTTPClient :=
    match http_Client_Transport (retry_HTTPClient retryHTTPClient) with
    | Some (http_Transport_RoundTripper httpTransport) =>
        if insecureSkipVerify then
          Build_retryablehttp_Client
            (Build_http_Client
               (Some (http_Transport_RoundTripper
                  {| TLSClientConfig :=
                       Some {| InsecureSkipVerify := insecureSkipVerify;
                               tls_settings := zero_TLSSettings |};
                     transport_settings :=
                       transport_settings httpTransport |}))
               (client_settings (retry_HTTPClient retryHTTPClient)))
            (retry_Logger retryHTTPClient)
            (retry_settings retryHTTPClient)
        else retryHTTPClient
    | _ => retryHTTPClient
    end in
  let client := {| httpClient := StandardClient retryHTTPClient |} in
  (Some client, None).

Definition HTTPClient (c : Client) : http_Client := httpClient c.

(** The transport at the bottom of a client: through the retrying
    round trippers down to the one that talks to the network. *)
Fixpoint bottom_of_http_Client (c : http_Client) : option RoundTripper :=
  match c with
  | Build_http_Client (Some (retryablehttp_RoundTripper r)) _ =>
      match r with
      | Build_retryablehttp_Client h _ _ => bottom_of_http_Client h
      end
  | Build_http_Client t _ => t
  end.

(** Whether a client accepts any certificate the server presents. *)
Definition skips_verification (c : http_Client) : bool :=
  match bottom_of_http_Client c with
  | Some (http_Transport_RoundTripper t) =>
      match TLSClientConfig t with
      | Some config => InsecureSkipVerify config
      | None => false
      end
  | _ => false
  end.
End NewClient.

(** ** Vocabulary of the properties *)

Section Vocabulary.
Context `{Platform}.

(** The request [newAPIRequest] hands out once the URL has parsed. *)
Definition api_request (ctx : context_Context) (method : string) (u : URL)
    (bearerToken : string) (body : option string) : Request :=
  {| ctx := ctx; Method := method; Url := u;
     Hdr := Header_Add "User-Agent" DefaultUserAgent
              (Header_Add "Authorization" ("Bearer " +:+ bearerToken) ∅);
     Body := body |}.

(** Where a call with this token and path goes: the parsed URL, when
    the token yields an events URL and that URL with the path parses. *)
Definition target (bearerToken path : string) : option URL :=
  match ParseJWTClaims bearerToken with
  | inl _ => None
  | inr jwt =>
      match GetEventsURL jwt with
      | inl _ => None
      | inr url =>
          match url_Parse (url +:+ path) with
          | inl _ => None
          | inr u => Some u
          end
      end
  end.

(** The error of a token that does not decode or has no events URL. *)
Definition credential_error (bearerToken : string) : option error :=
  match ParseJWTClaims bearerToken with
  | inl err => Some err
  | inr jwt =>
      match GetEventsURL jwt with
      | inl err => Some err
      | inr _ => None
      end
  end.

(** The requests that went out during a call. *)
Definition issued {A} (call : Go A) (w : World) : list Request :=
  drop (length (sent w)) (sent (snd (call w))).

(** The world after a call whose request got no answer, and after one
    whose request did. *)
Definition unanswered (w : World) (r : Request) (t : Transport) : World :=
  {| transport := t; sent := (sent w ++ [r])%list; bodies := bodies w |}.

Definition answered (w : World) (r : Request) (reply : Reply)
    (t : Transport) : World :=
  {| transport := t; sent := (sent w ++ [r])%list;
     bodies := (bodies w ++ [{| content := reply_body reply;
                                closed := true |}])%list |}.

Definition decoded {T} (decode : string → T → T * option error) (zero : T)
    (reply : Reply) : option T * option error :=
  match decode (reply_body reply) zero with
  | (_, Some err) =>
      (None, Some (fmt_Errorf_w "failed to unmarshal response. " err))
  | (v, None) => (Some v, None)
  end.

Definition read_after_close {T} (reply : Reply) : option T * option error :=
  (None, Some (fmt_Errorf_w "failed to unmarshal response. "
                            errReadOnClosedResBody)).

Definition exchange {T} (method path : string) (body : option string)
    (on_200 : Reply → option T * option error)
    (ctx : context_Context) (bearerToken : string) (w : World)
    : outcome (option T * option error) * World :=
  match ParseJWTClaims bearerToken with
  | inl err =>
      (Returned (None, Some (fmt_Errorf_w
                               "failed to create new API request. " err)), w)
  | inr jwt =>
      match GetEventsURL jwt with
      | inl err =>
          (Returned (None, Some (fmt_Errorf_w
                                   "failed to create new API request. " err)),
           w)
      | inr url =>
          match url_Parse (url +:+ path) with
          | inl _ => (Panicked nil_dereference, w)
          | inr u =>
              let r := api_request ctx method u bearerToken body in
              match RoundTrip (transport w) r with
              | (inl err, t) => (Returned (None, Some err), unanswered w r t)
              | (inr reply, t) =>
                  (Returned
                     (if (reply_code reply =? 200)%Z then on_200 reply
                      else (None, Some (fmt_Errorf_s
                                          "unexpected status code: "
                                          (reply_status reply)))),
                   answered w r reply t)
              end
          end
      end
  end.

(** An object without a details object: each member is null or has a
    key that does not go to the field [details]. *)
Definition lacks_details (members : list (string * json)) : Prop :=
  Forall (λ m, snd m = JNull
               ∨ (fst m ≠ "details"
                  ∧ EqualFold "details" (fst m) = false))
         members.

(** A store whose verdict does not depend on what was there before. *)
Definition steady {S} (store : json → S → S * status) : Prop :=
  ∀ v s s', snd (store v s) = snd (store v s').

(** A member that decodes without error when it is the only one. *)
Definition member_ok (m : string * json) : Prop :=
  snd (Unmarshal_SignInAttempt (JObject [m])) = None.
End Vocabulary.

(** ** Vocabulary of the further properties *)

Section Sanitized.
Context `{Platform}.

(** A value as it comes back from its own encoding: [json.Marshal]
    replaces invalid UTF-8 in every string. *)
Definition sanitized_SignInAttemptDetails (d : SignInAttemptDetails)
    : SignInAttemptDetails :=
  {| SignInAttemptDetails_Value :=
       ToValidUTF8 (SignInAttemptDetails_Value d) |}.

Definition sanitized_SignInAttemptTargetUser (u : SignInAttemptTargetUser)
    : SignInAttemptTargetUser :=
  {| SignInAttemptTargetUser_UUID :=
       ToValidUTF8 (SignInAttemptTargetUser_UUID u);
     SignInAttemptTargetUser_Name :=
       ToValidUTF8 (SignInAttemptTargetUser_Name u);
     SignInAttemptTargetUser_Email :=
       ToValidUTF8 (SignInAttemptTargetUser_Email u) |}.

Definition sanitized_SignInAttemptClient (c : SignInAttemptClient)
    : SignInAttemptClient :=
  {| SignInAttemptClient_AppName :=
       ToValidUTF8 (SignInAttemptClient_AppName c);
     SignInAttemptClient_AppVersion :=
       ToValidUTF8 (SignInAttemptClient_AppVersion c);
     SignInAttemptClient_PlatformName :=
       ToValidUTF8 (SignInAttemptClient_PlatformName c);
     SignInAttemptClient_PlatformVersion :=
       ToValidUTF8 (SignInAttemptClient_PlatformVersion c);
     SignInAttemptClient_OSName :=
       ToValidUTF8 (SignInAttemptClient_OSName c);
     SignInAttemptClient_OSVersion :=
       ToValidUTF8 (SignInAttemptClient_OSVersion c);
     SignInAttemptClient_IPAddress :=
       ToValidUTF8 (SignInAttemptClient_IPAddress c) |}.

Definition sanitized_SignInAttempt (s : SignInAttempt) : SignInAttempt :=
  {| SignInAttempt_UUID := ToValidUTF8 (SignInAttempt_UUID s);
     SignInAttempt_SessionUUID := ToValidUTF8 (SignInAttempt_SessionUUID s);
     SignInAttempt_Timestamp := SignInAttempt_Timestamp s;
     SignInAttempt_Country := ToValidUTF8 (SignInAttempt_Country s);
     SignInAttempt_Category := ToValidUTF8 (SignInAttempt_Category s);
     SignInAttempt_Type := ToValidUTF8 (SignInAttempt_Type s);
     SignInAttempt_Details :=
       option_map sanitized_SignInAttemptDetails (SignInAttempt_Details s);
     SignInAttempt_SignInAttemptTargetUser :=
       sanitized_SignInAttemptTargetUser
         (SignInAttempt_SignInAttemptTargetUser s);
     SignInAttempt_SignInAttemptClient :=
       sanitized_SignInAttemptClient (SignInAttempt_SignInAttemptClient s) |}.

Definition sanitized_ItemUsageUser (u : ItemUsageUser) : ItemUsageUser :=
  {| ItemUsageUser_UUID := ToValidUTF8 (ItemUsageUser_UUID u);
     ItemUsageUser_Name := ToValidUTF8 (ItemUsageUser_Name u);
     ItemUsageUser_Email := ToValidUTF8 (ItemUsageUser_Email u) |}.

Definition sanitized_ItemUsageClient (c : ItemUsageClient)
    : ItemUsageClient :=
  {| ItemUsageClient_AppName := ToValidUTF8 (ItemUsageClient_AppName c);
     ItemUsageClient_AppVersion :=
       ToValidUTF8 (ItemUsageClient_AppVersion c);
     ItemUsageClient_PlatformName :=
       ToValidUTF8 (ItemUsageClient_PlatformName c);
     ItemUsageClient_PlatformVersion :=
       ToValidUTF8 (ItemUsageClient_PlatformVersion c);
     ItemUsageClient_OSName := ToValidUTF8 (ItemUsageClient_OSName c);
     ItemUsageClient_OSVersion := ToValidUTF8 (ItemUsageClient_OSVersion c);
     ItemUsageClient_IPAddress :=
       ToValidUTF8 (ItemUsageClient_IPAddress c) |}.

Definition sanitized_ItemUsage (s : ItemUsage) : ItemUsage :=
  {| ItemUsage_UUID := ToValidUTF8 (ItemUsage_UUID s);
     ItemUsage_Timestamp := ItemUsage_Timestamp s;
     ItemUsage_UsedVersion := ItemUsage_UsedVersion s;
     ItemUsage_VaultUUID := ToValidUTF8 (ItemUsage_VaultUUID s);
     ItemUsage_ItemUUID := ToValidUTF8 (ItemUsage_ItemUUID s);
     ItemUsage_ItemUsageUser :=
       sanitized_ItemUsageUser (ItemUsage_ItemUsageUser s);
     ItemUsage_ItemUsageClient :=
       sanitized_ItemUsageClient (ItemUsage_ItemUsageClient s) |}.

(** A time stamp that [time.Time] writes as a value (never [null]) from
    which it reads the same time back. *)
Definition reads_back (t : Time) : Prop :=
  ∃ j, Time_MarshalJSON t = inr j
       ∧ j ≠ JNull
       ∧ Time_UnmarshalJSON j = inr t.

(** A member whose key belongs to one of the fields. *)
Definition known {S} (fields : list (string * (json → S → S * status)))
    (m : string * json) : bool :=
  match find_field fields (fst m) with
  | Some _ => true
  | None => false
  end.
End Sanitized.

(** ** A test double *)

(** A fake surrounding, of the kind the package's unit tests would
    inject: tokens are written [jwt:<events URL>], the token [jwt] has
    claims without the URL, anything else does not decode; URLs with a
    blank in them do not parse; the transport plays back a script of
    answers; a body decodes when it is not empty. *)
Module Fake.
#[export] Instance domain : Domain := {|
  context_Context := unit;
  Claims := option string;
  URL := string;
  Time := string;
  zeroTime := "0001-01-01T00:00:00Z";
  Transport := list (error + Reply);
|}.

Fixpoint has_blank (s : string) : bool :=
  match s with
  | EmptyString => false
  | String c s' => Ascii.eqb c " " || has_blank s'
  end.

Definition parse_claims (token : string) : error + option string :=
  if String.eqb token "jwt" then inr None
  else if String.prefix "jwt:" token
       then inr (Some (String.substring 4 (String.length token - 4) token))
       else inl (errors_New "token is malformed").

Definition fold (s : string) : string :=
  string_of_list_ascii (List.map toLower (list_ascii_of_string s)).

#[export] Instance platform : Platform := {|
  ParseJWTClaims := parse_claims;
  GetEventsURL := λ c, match c with
                       | Some u => inr u
                       | None => inl (errors_New "token has no events URL")
                       end;
  Version := "0.0.0";
  url_Parse := λ u,
    if has_blank u
    then inl (errors_New "net/url: invalid character in host name")
    else inr u;
  RoundTrip := λ t _, match t with
                      | answer :: t' => (answer, t')
                      | [] => (inl (errors_New "connection refused"), [])
                      end;
  Decode_IntrospectResponse := λ data v,
    if String.eqb data "" then (v, Some (errors_New "EOF"))
    else ({| IntrospectResponse_UUID := data;
             IntrospectResponse_IssuedAt := "2021-03-01T00:00:00Z";
             IntrospectResponse_Features := ["signinattempts"] |}, None);
  Decode_SignInAttemptResponse := λ data v,
    if String.eqb data "" then (v, Some (errors_New "EOF"))
    else ({| SignInAttemptResponse_Cursor := data;
             SignInAttemptResponse_HasMore := false;
             SignInAttemptResponse_Items := [] |}, None);
  Decode_ItemUsageResponse := λ data v,
    if String.eqb data "" then (v, Some (errors_New "EOF"))
    else ({| ItemUsageResponse_Cursor := data;
             ItemUsageResponse_HasMore := false;
             ItemUsageResponse_Items := [] |}, None);
  EqualFold := λ a b, String.eqb (fold a) (fold b);
  ToValidUTF8 := λ s, s;
  Time_UnmarshalJSON := λ v,
    match v with
    | JString s => inr s
    | _ => inl (errors_New "Time.UnmarshalJSON: input is not a JSON string")
    end;
  Time_MarshalJSON := λ t, inr (JString t);
|}.

Definition reply_ok (body : string) : Reply :=
  {| reply_code := 200; reply_status := "200 OK"; reply_body := body |}.

Definition reply_unauthorized : Reply :=
  {| reply_code := 401; reply_status := "401 Unauthorized";
     reply_body := "" |}.

Definition ok (body : string) : error + Reply := inr (reply_ok body).

Definition unauthorized : error + Reply := inr reply_unauthorized.

Definition world (script : list (error + Reply)) : World :=
  {| transport := script; sent := []; bodies := [] |}.

(** [context.Background()] *)
Definition background : context_Context := tt.

Definition token : string := "jwt:https://events.example".
End Fake.


(** A fake HTTP library: the retrying client it hands out sends through
    an [http.Transport] without a TLS configuration. *)
Module FakeHTTP.
#[export] Instance types : HTTPTypes := {|
  Logger := string;
  TLSSettings := list string;
  zero_TLSSettings := [];
  TransportSettings := nat;
  ClientSettings := Z;
  zero_ClientSettings := 0;
  RetrySettings := nat;
  OtherRoundTripper := unit;
|}.

Definition pooled_transport : http_Transport :=
  {| TLSClientConfig := None; transport_settings := 100%nat |}.

Definition pooled_client : http_Client :=
  Build_http_Client (Some (http_Transport_RoundTripper pooled_transport)) 0.

#[export] Instance library : HTTPLibrary := {|
  retryablehttp_NewClient :=
    Build_retryablehttp_Client pooled_client "default logger" 4%nat;
|}.

Definition beat_logger : Logger := "beat logger".
End FakeHTTP.

(** Two events, as the fake platform sees them. *)
Module Samples.
Definition morning : @Time Fake.domain := "2021-03-01T00:00:00Z".

Definition blocked_attempt : @SignInAttempt Fake.domain :=
  {| SignInAttempt_UUID := "a1";
     SignInAttempt_SessionUUID := "s1";
     SignInAttempt_Timestamp := morning;
     SignInAttempt_Country := "CA";
     SignInAttempt_Category := "firewall_failed";
     SignInAttempt_Type := "continent_blocked";
     SignInAttempt_Details :=
       Some {| SignInAttemptDetails_Value := "Europe" |};
     SignInAttempt_SignInAttemptTargetUser :=
       {| SignInAttemptTargetUser_UUID := "u1";
          SignInAttemptTargetUser_Name := "Wendy";
          SignInAttemptTargetUser_Email := "wendy@example.com" |};
     SignInAttempt_SignInAttemptClient := zero_SignInAttemptClient |}.

Definition used_item : @ItemUsage Fake.domain :=
  {| ItemUsage_UUID := "e1";
     ItemUsage_Timestamp := morning;
     ItemUsage_UsedVersion := 4294967295;
     ItemUsage_VaultUUID := "v1";
     ItemUsage_ItemUUID := "i1";
     ItemUsage_ItemUsageUser :=
       {| ItemUsageUser_UUID := "u1";
          ItemUsageUser_Name := "Wendy";
          ItemUsageUser_Email := "wendy@example.com" |};
     ItemUsage_ItemUsageClient := zero_ItemUsageClient |}.
End Samples.

(** * Properties *)

(** ** Request building *)

Section Requests.
Context `{Platform}.

Lemma validMethod_nonempty method :
  validMethod method = true → String.eqb method "" = false.
Proof.
  unfold validMethod. intros Hv. apply andb_prop in Hv as [Hv _].
  now apply negb_true_iff in Hv.
Qed.

Lemma NewRequestWithContext_valid ctx method url body :
  validMethod method = true →
  NewRequestWithContext ctx method url body =
  match url_Parse url with
  | inl err => (None, Some err)
  | inr u => (Some {| ctx := ctx; Method := method; Url := u;
                      Hdr := ∅; Body := body |}, None)
  end.
Proof.
  intros Hv. unfold NewRequestWithContext.
  rewrite (validMethod_nonempty _ Hv), Hv. reflexivity.
Qed.

Lemma newAPIRequest_run ctx method bearerToken path body w :
  validMethod method = true →
  newAPIRequest ctx method bearerToken path body w =
  match ParseJWTClaims bearerToken with
  | inl err => (Returned (None, Some err), w)
  | inr jwt =>
      match GetEventsURL jwt with
      | inl err => (Returned (None, Some err), w)
      | inr url =>
          match url_Parse (url +:+ path) with
          | inl _ => (Panicked nil_dereference, w)
          | inr u =>
              (Returned (Some (api_request ctx method u bearerToken body),
                         None), w)
          end
      end
  end.
Proof.
  intros Hv. unfold newAPIRequest.
  destruct (ParseJWTClaims bearerToken) as [err|jwt]; [reflexivity|].
  destruct (GetEventsURL jwt) as [err|url]; [reflexivity|].
  rewrite (NewRequestWithContext_valid _ _ _ _ Hv).
  destruct (url_Parse (url +:+ path)) as [err|u]; reflexivity.
Qed.

Lemma validMethod_GET : validMethod http_MethodGet = true.
Proof. reflexivity. Qed.

Lemma validMethod_POST : validMethod http_MethodPost = true.
Proof. reflexivity. Qed.

Lemma Header_Get_Add_eq key value (h : Header) :
  h !! CanonicalMIMEHeaderKey key = None →
  Header_Get key (Header_Add key value h) = value.
Proof.
  intros Hnone. unfold Header_Get, Header_Add.
  rewrite lookup_insert_eq, Hnone. reflexivity.
Qed.

Lemma Header_Get_Add_ne key key' value (h : Header) :
  CanonicalMIMEHeaderKey key ≠ CanonicalMIMEHeaderKey key' →
  Header_Get key' (Header_Add key value h) = Header_Get key' h.
Proof.
  intros Hne. unfold Header_Get, Header_Add.
  now rewrite lookup_insert_ne.
Qed.

Lemma api_request_Authorization ctx method u bearerToken body :
  Header_Get "Authorization"
    (Hdr (api_request ctx method u bearerToken body))
  = "Bearer " +:+ bearerToken.
Proof.
  unfold api_request; cbn [Hdr].
  rewrite Header_Get_Add_ne by (vm_compute; discriminate).
  apply Header_Get_Add_eq, lookup_empty.
Qed.

Lemma api_request_User_Agent ctx method u bearerToken body :
  Header_Get "User-Agent"
    (Hdr (api_request ctx method u bearerToken body))
  = DefaultUserAgent.
Proof.
  unfold api_request; cbn [Hdr].
  apply Header_Get_Add_eq.
  unfold Header_Add. rewrite lookup_insert_ne by (vm_compute; discriminate).
  apply lookup_empty.
Qed.
End Requests.

(** ** What a call does, case by case *)

Section Runs.
Context `{Platform}.

Lemma lookup_fresh_body (l : list ResponseBody) b :
  (l ++ [b])%list !! length l = Some b.
Proof. now apply list_lookup_middle. Qed.

Lemma close_fresh_body (l : list ResponseBody) b b' :
  <[length l := b']> (l ++ [b])%list = (l ++ [b'])%list.
Proof.
  replace (length l) with (length l + 0)%nat by lia.
  now rewrite insert_app_r.
Qed.

Ltac crunch :=
  unfold exchange, decoded, read_after_close, Client_Do, send, defer,
    Body_Close, Decoder_Decode, Body_Read, deref, answered, unanswered,
    mbind, mret, Go_bind, Go_ret;
  cbn [bodies transport sent StatusCode Status RespBody content closed
       fst snd negb];
  rewrite ?lookup_fresh_body, ?close_fresh_body;
  cbn [bodies transport sent StatusCode Status RespBody content closed
       fst snd negb].

Lemma Introspect_run ctx bearerToken w :
  Introspect ctx bearerToken w =
  exchange http_MethodGet "/api/auth/introspect" None read_after_close
           ctx bearerToken w.
Proof.
  unfold Introspect. unfold mbind at 1. unfold Go_bind at 1.
  rewrite (newAPIRequest_run _ _ _ _ _ _ validMethod_GET).
  unfold exchange.
  destruct (ParseJWTClaims bearerToken) as [err|jwt]; [reflexivity|].
  destruct (GetEventsURL jwt) as [err|url]; [reflexivity|].
  destruct (url_Parse _) as [err|u]; [reflexivity|].
  crunch.
  destruct (RoundTrip _ _) as [[err|reply] t]; [reflexivity|].
  crunch.
  destruct (reply_code reply =? 200)%Z; crunch; reflexivity.
Qed.

Lemma SignInAttempts_run ctx bearerToken cursor w :
  SignInAttempts ctx bearerToken cursor w =
  exchange http_MethodPost "/api/v1/signinattempts" (Some cursor)
           (decoded Decode_SignInAttemptResponse zero_SignInAttemptResponse)
           ctx bearerToken w.
Proof.
  unfold SignInAttempts. unfold mbind at 1. unfold Go_bind at 1.
  rewrite (newAPIRequest_run _ _ _ _ _ _ validMethod_POST).
  unfold exchange.
  destruct (ParseJWTClaims bearerToken) as [err|jwt]; [reflexivity|].
  destruct (GetEventsURL jwt) as [err|url]; [reflexivity|].
  destruct (url_Parse _) as [err|u]; [reflexivity|].
  crunch.
  destruct (RoundTrip _ _) as [[err|reply] t]; [reflexivity|].
  crunch.
  destruct (reply_code reply =? 200)%Z; crunch; [|reflexivity].
  destruct (Decode_SignInAttemptResponse _ _) as [v [err|]];
    crunch; reflexivity.
Qed.

Lemma ItemUsages_run ctx bearerToken cursor w :
  ItemUsages ctx bearerToken cursor w =
  exchange http_MethodPost "/api/v1/itemusages" (Some cursor)
           (decoded Decode_ItemUsageResponse zero_ItemUsageResponse)
           ctx bearerToken w.
Proof.
  unfold ItemUsages. unfold mbind at 1. unfold Go_bind at 1.
  rewrite (newAPIRequest_run _ _ _ _ _ _ validMethod_POST).
  unfold exchange.
  destruct (ParseJWTClaims bearerToken) as [err|jwt]; [reflexivity|].
  destruct (GetEventsURL jwt) as [err|url]; [reflexivity|].
  destruct (url_Parse _) as [err|u]; [reflexivity|].
  crunch.
  destruct (RoundTrip _ _) as [[err|reply] t]; [reflexivity|].
  crunch.
  destruct (reply_code reply =? 200)%Z; crunch; [|reflexivity].
  destruct (Decode_ItemUsageResponse _ _) as [v [err|]];
    crunch; reflexivity.
Qed.
End Runs.

(** ** The three operations *)

Section Operations.
Context `{Platform}.

Lemma target_resolved bearerToken path u :
  target bearerToken path = Some u →
  ∃ jwt url, ParseJWTClaims bearerToken = inr jwt
             ∧ GetEventsURL jwt = inr url
             ∧ url_Parse (url +:+ path) = inr u.
Proof.
  unfold target. intros Ht.
  destruct (ParseJWTClaims bearerToken) as [err|jwt] eqn:Hp; [discriminate|].
  destruct (GetEventsURL jwt) as [err|url] eqn:Hg; [discriminate|].
  destruct (url_Parse (url +:+ path)) as [err|u'] eqn:Hu; [discriminate|].
  exists jwt, url. injection Ht as <-. auto.
Qed.

(** A call that reaches the transport. *)
Lemma exchange_sent {T} method path body
    (on_200 : Reply → option T * option error) ctx bearerToken w u :
  target bearerToken path = Some u →
  exchange method path body on_200 ctx bearerToken w =
  let r := api_request ctx method u bearerToken body in
  match RoundTrip (transport w) r with
  | (inl err, t) => (Returned (None, Some err), unanswered w r t)
  | (inr reply, t) =>
      (Returned (if (reply_code reply =? 200)%Z then on_200 reply
                 else (None, Some (fmt_Errorf_s "unexpected status code: "
                                                (reply_status reply)))),
       answered w r reply t)
  end.
Proof.
  intros Ht. destruct (target_resolved _ _ _ Ht) as (jwt & url & Hp & Hg & Hu).
  unfold exchange. now rewrite Hp, Hg, Hu.
Qed.

(** A call stopped by the token. *)
Lemma exchange_credential {T} method path body
    (on_200 : Reply → option T * option error) ctx bearerToken w err :
  credential_error bearerToken = Some err →
  exchange method path body on_200 ctx bearerToken w =
  (Returned (None, Some (fmt_Errorf_w "failed to create new API request. "
                                      err)), w).
Proof.
  unfold credential_error, exchange. intros Hc.
  destruct (ParseJWTClaims bearerToken) as [e|jwt].
  - now inversion Hc.
  - destruct (GetEventsURL jwt) as [e|url]; [now inversion Hc|discriminate].
Qed.

Lemma exchange_issued {T} method path body
    (on_200 : Reply → option T * option error) ctx bearerToken w :
  drop (length (sent w))
       (sent (snd (exchange method path body on_200 ctx bearerToken w)))
  = match target bearerToken path with
    | Some u => [api_request ctx method u bearerToken body]
    | None => []
    end.
Proof.
  unfold exchange, target.
  destruct (ParseJWTClaims bearerToken) as [e|jwt]; [apply drop_all|].
  destruct (GetEventsURL jwt) as [e|url]; [apply drop_all|].
  destruct (url_Parse _) as [e|u]; [apply drop_all|].
  cbn zeta.
  destruct (RoundTrip _ _) as [[e|reply] t]; cbn [snd];
    unfold answered, unanswered; cbn [sent]; apply drop_app_length.
Qed.

(** The outcome of a call depends on the world only through the answer
    of the transport. *)
Lemma exchange_same_answer {T} method path body
    (on_200 : Reply → option T * option error) ctx bearerToken w w' :
  (∀ r, fst (RoundTrip (transport w) r)
        = fst (RoundTrip (transport w') r)) →
  fst (exchange method path body on_200 ctx bearerToken w)
  = fst (exchange method path body on_200 ctx bearerToken w').
Proof.
  intros Hsame. unfold exchange.
  destruct (ParseJWTClaims bearerToken) as [e|jwt]; [reflexivity|].
  destruct (GetEventsURL jwt) as [e|url]; [reflexivity|].
  destruct (url_Parse _) as [e|u]; [reflexivity|].
  cbn zeta. specialize (Hsame (api_request ctx method u bearerToken body)).
  destruct (RoundTrip (transport w) _) as [a t].
  destruct (RoundTrip (transport w') _) as [a' t'].
  cbn [fst] in Hsame. subst a'. now destruct a.
Qed.

Lemma issued_shape ctx method bearerToken path body r :
  r ∈ match target bearerToken path with
      | Some u => [api_request ctx method u bearerToken body]
      | None => []
      end →
  Method r = method
  ∧ target bearerToken path = Some (Url r)
  ∧ Body r = body.
Proof.
  destruct (target bearerToken path) as [u|]; intros Hr.
  - apply list_elem_of_singleton in Hr. now subst r.
  - now apply not_elem_of_nil in Hr.
Qed.

Lemma issued_headers ctx method bearerToken path body r :
  r ∈ match target bearerToken path with
      | Some u => [api_request ctx method u bearerToken body]
      | None => []
      end →
  Header_Get "Authorization" (Hdr r) = "Bearer " +:+ bearerToken
  ∧ Header_Get "User-Agent" (Hdr r)
    = "1Password Events API Beats / " +:+ Version.
Proof.
  destruct (target bearerToken path) as [u|]; intros Hr.
  - apply list_elem_of_singleton in Hr. subst r.
    split; [apply api_request_Authorization|apply api_request_User_Agent].
  - now apply not_elem_of_nil in Hr.
Qed.

(** C5: a bearer token that does not decode, or that lacks the events
    URL claim, makes each of the three operations fail with that
    credential error (wrapped by [%w], so [Unwrap] gives it back) and
    leaves the world as it was: no request has gone out and the
    transport, which does the retrying, was never entered. *)
Theorem credential_error_stops_the_call ctx bearerToken cursor w err :
  credential_error bearerToken = Some err →
  let failure :=
    fmt_Errorf_w "failed to create new API request. " err in
  Unwrap failure = Some err
  ∧ Introspect ctx bearerToken w = (Returned (None, Some failure), w)
  ∧ SignInAttempts ctx bearerToken cursor w
    = (Returned (None, Some failure), w)
  ∧ ItemUsages ctx bearerToken cursor w
    = (Returned (None, Some failure), w).
Proof.
  intros Hc failure. split; [reflexivity|].
  rewrite Introspect_run, SignInAttempts_run, ItemUsages_run.
  now rewrite !(exchange_credential _ _ _ _ _ _ _ _ Hc).
Qed.

(** C3: when the transport returns a response whose status code is not
    200, each of the three operations returns no result and an error
    whose text is "unexpected status code: " followed by the status of
    the response exactly as received. *)
Theorem non_200_is_an_error_with_the_status ctx bearerToken cursor w :
  (∀ u reply t,
     target bearerToken "/api/auth/introspect" = Some u →
     RoundTrip (transport w)
       (api_request ctx http_MethodGet u bearerToken None) = (inr reply, t) →
     reply_code reply ≠ 200 →
     fst (Introspect ctx bearerToken w)
     = Returned (None, Some (errors_New ("unexpected status code: "
                                         +:+ reply_status reply))))
  ∧ (∀ u reply t,
     target bearerToken "/api/v1/signinattempts" = Some u →
     RoundTrip (transport w)
       (api_request ctx http_MethodPost u bearerToken (Some cursor))
     = (inr reply, t) →
     reply_code reply ≠ 200 →
     fst (SignInAttempts ctx bearerToken cursor w)
     = Returned (None, Some (errors_New ("unexpected status code: "
                                         +:+ reply_status reply))))
  ∧ (∀ u reply t,
     target bearerToken "/api/v1/itemusages" = Some u →
     RoundTrip (transport w)
       (api_request ctx http_MethodPost u bearerToken (Some cursor))
     = (inr reply, t) →
     reply_code reply ≠ 200 →
     fst (ItemUsages ctx bearerToken cursor w)
     = Returned (None, Some (errors_New ("unexpected status code: "
                                         +:+ reply_status reply)))).
Proof.
  rewrite Introspect_run, SignInAttempts_run, ItemUsages_run.
  repeat split; intros u reply t Ht Hr Hcode;
    rewrite (exchange_sent _ _ _ _ _ _ _ _ Ht); cbn zeta; rewrite Hr;
    apply Z.eqb_neq in Hcode; rewrite Hcode; reflexivity.
Qed.

(** C4: when the body of the response does not decode as the batch,
    SignInAttempts and ItemUsages return an error and a nil batch,
    whatever the decoder had already filled in; on a 200 response the
    error is the decoder's error, wrapped. *)
Theorem undecodable_batch_is_dropped ctx bearerToken cursor w :
  (∀ u reply t partial err,
     target bearerToken "/api/v1/signinattempts" = Some u →
     RoundTrip (transport w)
       (api_request ctx http_MethodPost u bearerToken (Some cursor))
     = (inr reply, t) →
     Decode_SignInAttemptResponse (reply_body reply)
       zero_SignInAttemptResponse = (partial, Some err) →
     ∃ failure,
       fst (SignInAttempts ctx bearerToken cursor w)
       = Returned (None, Some failure)
       ∧ (reply_code reply = 200 →
          failure = fmt_Errorf_w "failed to unmarshal response. " err))
  ∧ (∀ u reply t partial err,
     target bearerToken "/api/v1/itemusages" = Some u →
     RoundTrip (transport w)
       (api_request ctx http_MethodPost u bearerToken (Some cursor))
     = (inr reply, t) →
     Decode_ItemUsageResponse (reply_body reply)
       zero_ItemUsageResponse = (partial, Some err) →
     ∃ failure,
       fst (ItemUsages ctx bearerToken cursor w)
       = Returned (None, Some failure)
       ∧ (reply_code reply = 200 →
          failure = fmt_Errorf_w "failed to unmarshal response. " err)).
Proof.
  rewrite SignInAttempts_run, ItemUsages_run.
  split; intros u reply t partial err Ht Hr Hd;
    rewrite (exchange_sent _ _ _ _ _ _ _ _ Ht); cbn zeta; rewrite Hr;
    unfold decoded; rewrite Hd; cbn [fst];
    destruct (reply_code reply =? 200)%Z eqn:Hcode;
    eexists; (split; [reflexivity|]); intros H200;
    [reflexivity | apply Z.eqb_neq in Hcode; contradiction
    | reflexivity | apply Z.eqb_neq in Hcode; contradiction].
Qed.

(** C2: when the transport returns a response, the call ends with the
    body of that response closed, whichever way the call ends (nothing
    is assumed about the status or about the decoding), and with the
    bodies that were there before untouched. *)
Theorem response_body_is_closed ctx bearerToken cursor w :
  (∀ u reply t,
     target bearerToken "/api/auth/introspect" = Some u →
     RoundTrip (transport w)
       (api_request ctx http_MethodGet u bearerToken None) = (inr reply, t) →
     bodies (snd (Introspect ctx bearerToken w))
     = (bodies w ++ [{| content := reply_body reply; closed := true |}])%list)
  ∧ (∀ u reply t,
     target bearerToken "/api/v1/signinattempts" = Some u →
     RoundTrip (transport w)
       (api_request ctx http_MethodPost u bearerToken (Some cursor))
     = (inr reply, t) →
     bodies (snd (SignInAttempts ctx bearerToken cursor w))
     = (bodies w ++ [{| content := reply_body reply; closed := true |}])%list)
  ∧ (∀ u reply t,
     target bearerToken "/api/v1/itemusages" = Some u →
     RoundTrip (transport w)
       (api_request ctx http_MethodPost u bearerToken (Some cursor))
     = (inr reply, t) →
     bodies (snd (ItemUsages ctx bearerToken cursor w))
     = (bodies w ++ [{| content := reply_body reply; closed := true |}])%list).
Proof.
  rewrite Introspect_run, SignInAttempts_run, ItemUsages_run.
  repeat split; intros u reply t Ht Hr;
    rewrite (exchange_sent _ _ _ _ _ _ _ _ Ht); cbn zeta; rewrite Hr;
    reflexivity.
Qed.

(** C1, as the code has it: Introspect closes the body before it
    decodes it, so on a 200 response the decoder reads a closed body;
    the call returns no result and the read error, wrapped, whatever
    the body holds. *)
Theorem Introspect_decodes_a_closed_body ctx bearerToken w u reply t :
  target bearerToken "/api/auth/introspect" = Some u →
  RoundTrip (transport w)
    (api_request ctx http_MethodGet u bearerToken None) = (inr reply, t) →
  reply_code reply = 200 →
  fst (Introspect ctx bearerToken w)
  = Returned (None, Some (fmt_Errorf_w "failed to unmarshal response. "
                                       errReadOnClosedResBody)).
Proof.
  intros Ht Hr Hcode. rewrite Introspect_run.
  rewrite (exchange_sent _ _ _ _ _ _ _ _ Ht); cbn zeta. rewrite Hr, Hcode.
  reflexivity.
Qed.

(** C10, as the code has it: when the events URL of the token, with the
    path appended, is not a URL [http.NewRequestWithContext] accepts,
    the constructor returns nil and an error; the error is dropped and
    the first [Header.Add] goes through the nil request. *)
Theorem newAPIRequest_dereferences_nil ctx method bearerToken path body w
    jwt url err :
  validMethod method = true →
  ParseJWTClaims bearerToken = inr jwt →
  GetEventsURL jwt = inr url →
  url_Parse (url +:+ path) = inl err →
  newAPIRequest ctx method bearerToken path body w
  = (Panicked nil_dereference, w).
Proof.
  intros Hv Hp Hg Hu. rewrite (newAPIRequest_run _ _ _ _ _ _ Hv).
  now rewrite Hp, Hg, Hu.
Qed.

(** C6: whatever the token and the cursor (the empty one too), a
    request that SignInAttempts sends is a POST to the events URL of
    the token followed by /api/v1/signinattempts, with the cursor as
    its body, and one that ItemUsages sends is a POST to the events
    URL followed by /api/v1/itemusages, with the cursor as its body;
    the request is sent whenever the token leads to such a URL; the
    two paths differ. *)
Theorem fetches_post_the_cursor ctx bearerToken cursor w :
  (∀ r, r ∈ issued (SignInAttempts ctx bearerToken cursor) w →
        Method r = "POST"
        ∧ target bearerToken "/api/v1/signinattempts" = Some (Url r)
        ∧ Body r = Some cursor)
  ∧ (∀ r, r ∈ issued (ItemUsages ctx bearerToken cursor) w →
        Method r = "POST"
        ∧ target bearerToken "/api/v1/itemusages" = Some (Url r)
        ∧ Body r = Some cursor)
  ∧ (∀ u, target bearerToken "/api/v1/signinattempts" = Some u →
          ∃ r, issued (SignInAttempts ctx bearerToken cursor) w = [r])
  ∧ (∀ u, target bearerToken "/api/v1/itemusages" = Some u →
          ∃ r, issued (ItemUsages ctx bearerToken cursor) w = [r])
  ∧ "/api/v1/signinattempts" ≠ "/api/v1/itemusages".
Proof.
  unfold issued. rewrite SignInAttempts_run, ItemUsages_run.
  rewrite !exchange_issued.
  split; [|split; [|split; [|split]]].
  - intros r Hr. now destruct (issued_shape _ _ _ _ _ _ Hr) as (-> & -> & ->).
  - intros r Hr. now destruct (issued_shape _ _ _ _ _ _ Hr) as (-> & -> & ->).
  - intros u ->. eauto.
  - intros u ->. eauto.
  - discriminate.
Qed.

Lemma newAPIRequest_built ctx method bearerToken path body w request err w' :
  newAPIRequest ctx method bearerToken path body w
  = (Returned (Some request, err), w') →
  ∃ method' u, request = api_request ctx method' u bearerToken body.
Proof.
  unfold newAPIRequest, NewRequestWithContext.
  destruct (ParseJWTClaims bearerToken) as [e|jwt]; [discriminate|].
  destruct (GetEventsURL jwt) as [e|url]; [discriminate|].
  destruct (negb (validMethod _)); [discriminate|].
  destruct (url_Parse _) as [e|u]; [discriminate|].
  intros Hret. injection Hret as <- _ _. eauto.
Qed.

(** C7: every request built for one of the three operations carries
    the header Authorization with the value "Bearer " followed by the
    caller's token, and the header User-Agent with the fixed product
    name followed by the build version; so does every request
    [newAPIRequest] returns. *)
Theorem requests_carry_token_and_user_agent ctx bearerToken cursor w :
  let authenticated (r : Request) :=
    Header_Get "Authorization" (Hdr r) = "Bearer " +:+ bearerToken
    ∧ Header_Get "User-Agent" (Hdr r)
      = "1Password Events API Beats / " +:+ Version in
  (∀ r, r ∈ issued (Introspect ctx bearerToken) w → authenticated r)
  ∧ (∀ r, r ∈ issued (SignInAttempts ctx bearerToken cursor) w →
          authenticated r)
  ∧ (∀ r, r ∈ issued (ItemUsages ctx bearerToken cursor) w →
          authenticated r)
  ∧ (∀ method path body r err w',
       newAPIRequest ctx method bearerToken path body w
       = (Returned (Some r, err), w') →
       authenticated r).
Proof.
  intros authenticated. unfold issued, authenticated.
  rewrite Introspect_run, SignInAttempts_run, ItemUsages_run.
  rewrite !exchange_issued.
  split; [|split; [|split]].
  - intros r Hr. eapply issued_headers, Hr.
  - intros r Hr. eapply issued_headers, Hr.
  - intros r Hr. eapply issued_headers, Hr.
  - intros method path body r err w' Hret.
    apply newAPIRequest_built in Hret as (method' & u & ->).
    split; [apply api_request_Authorization|apply api_request_User_Agent].
Qed.

(** C9: two calls of SignInAttempts with the same token and the same
    cursor return the same result whenever the transport answers the
    second as it answered the first, whatever else differs between the
    worlds [w] and [w'] they start in; in particular when [w'] is the
    world the first call left behind: the requests already sent and
    the bodies already closed have no influence. *)
Theorem SignInAttempts_twice ctx bearerToken cursor w w' :
  (∀ r, fst (RoundTrip (transport w') r)
        = fst (RoundTrip (transport w) r)) →
  fst (SignInAttempts ctx bearerToken cursor w')
  = fst (SignInAttempts ctx bearerToken cursor w).
Proof.
  intros Hsame. rewrite !SignInAttempts_run.
  now apply exchange_same_answer.
Qed.
End Operations.

(** ** Decoding and encoding a sign-in attempt *)

Section Decoding.
Context `{Platform}.

Lemma find_field_some {F} (fields : list (string * F)) key store :
  find_field fields key = Some store →
  ∃ name, In (name, store) fields
          ∧ (name = key ∨ EqualFold name key = true).
Proof.
  unfold find_field. intros Hf.
  destruct (List.find (λ f, String.eqb (fst f) key) fields)
    as [[name st]|] eqn:Hexact.
  - apply List.find_some in Hexact as [Hin Heq]. cbn in Heq.
    apply String.eqb_eq in Heq. injection Hf as <-. eauto.
  - destruct (List.find (λ f, EqualFold (fst f) key) fields)
      as [[name st]|] eqn:Hfold; [|discriminate].
    apply List.find_some in Hfold as [Hin Heq]. cbn in Heq.
    injection Hf as <-. eauto.
Qed.

Lemma string_into_steady : steady string_into.
Proof. intros v s s'. now destruct v. Qed.

Lemma time_into_steady : steady time_into.
Proof.
  intros v s s'. unfold time_into.
  destruct v; try reflexivity; now destruct (Time_UnmarshalJSON _).
Qed.

Lemma field_steady {S A} (get : S → A) set store :
  steady store → steady (field get set store).
Proof.
  intros Hs v s s'. unfold field. specialize (Hs v (get s) (get s')).
  destruct (store v (get s)), (store v (get s')). exact Hs.
Qed.

Lemma pointer_into_steady {A} (zero : A) store :
  steady store → steady (pointer_into zero store).
Proof.
  intros Hs v p p'. unfold pointer_into.
  specialize (Hs v (default zero p) (default zero p')).
  destruct v; try reflexivity;
    destruct (store _ (default zero p)), (store _ (default zero p'));
    exact Hs.
Qed.

Lemma object_into_steady {S}
    (fields : list (string * (json → S → S * status))) :
  (∀ name store, In (name, store) fields → steady store) →
  ∀ members s s' saved,
    snd (object_into fields members s saved)
    = snd (object_into fields members s' saved).
Proof.
  intros Hfields members.
  induction members as [|[key v] members IH]; intros s s' saved; cbn.
  - reflexivity.
  - destruct (find_field fields key) as [store|] eqn:Hf; [|apply IH].
    apply find_field_some in Hf as (name & Hin & _).
    pose proof (Hfields _ _ Hin v s s') as Hst.
    destruct (store v s) as [s1 st1], (store v s') as [s1' st1'].
    cbn in Hst. subst st1'. destruct st1; auto.
Qed.

Lemma struct_into_steady {S} gotype
    (fields : list (string * (json → S → S * status))) :
  (∀ name store, In (name, store) fields → steady store) →
  steady (struct_into gotype fields).
Proof.
  intros Hfields v s s'. destruct v; try reflexivity.
  cbn. now apply object_into_steady.
Qed.

Ltac each_field Hin :=
  cbn in Hin;
  repeat (destruct Hin as [Hin|Hin];
          [injection Hin as <- <-|]);
  [..|contradiction].

Lemma SignInAttemptDetails_steady : steady unmarshal_SignInAttemptDetails.
Proof.
  apply struct_into_steady. intros name store Hin.
  each_field Hin; apply field_steady, string_into_steady.
Qed.

Lemma SignInAttemptTargetUser_steady :
  steady unmarshal_SignInAttemptTargetUser.
Proof.
  apply struct_into_steady. intros name store Hin.
  each_field Hin; apply field_steady, string_into_steady.
Qed.

Lemma SignInAttemptClient_steady : steady unmarshal_SignInAttemptClient.
Proof.
  apply struct_into_steady. intros name store Hin.
  each_field Hin; apply field_steady, string_into_steady.
Qed.

Lemma SignInAttempt_fields_steady name store :
  In (name, store) SignInAttempt_fields → steady store.
Proof.
  intros Hin.
  each_field Hin; apply field_steady;
    auto using string_into_steady, time_into_steady, pointer_into_steady,
      SignInAttemptDetails_steady, SignInAttemptTargetUser_steady,
      SignInAttemptClient_steady.
Qed.

(** Only the store of the field [details] writes [Details]. *)
Lemma other_fields_keep_Details name store v s :
  In (name, store) SignInAttempt_fields →
  name ≠ "details" →
  SignInAttempt_Details (fst (store v s)) = SignInAttempt_Details s.
Proof.
  intros Hin Hname.
  each_field Hin; try (now contradiction Hname);
    unfold field;
    match goal with
    | |- context [let '(_, _) := ?store v ?a in _] => now destruct (store v a)
    end.
Qed.

Lemma null_keeps_Details_nil name store s :
  In (name, store) SignInAttempt_fields →
  SignInAttempt_Details s = None →
  SignInAttempt_Details (fst (store JNull s)) = None.
Proof.
  intros Hin Hnil. each_field Hin; cbn; auto.
Qed.

Lemma object_into_keeps_Details_nil members :
  lacks_details members →
  ∀ s saved,
    SignInAttempt_Details s = None →
    SignInAttempt_Details
      (fst (object_into SignInAttempt_fields members s saved)) = None.
Proof.
  induction 1 as [|[key v] members Hmember _ IH]; intros s saved Hnil; cbn.
  - exact Hnil.
  - cbn in Hmember.
    destruct (find_field SignInAttempt_fields key) as [store|] eqn:Hf;
      [|now apply IH].
    apply find_field_some in Hf as (name & Hin & Hmatch).
    assert (SignInAttempt_Details (fst (store v s)) = None) as Hkeep.
    { destruct Hmember as [->|[Hkey Hfold]].
      - now apply (null_keeps_Details_nil name).
      - rewrite (other_fields_keep_Details name); [exact Hnil|exact Hin|].
        intros ->. destruct Hmatch as [<-|Hm]; [now apply Hkey|congruence]. }
    destruct (store v s) as [s1 st1]. cbn in Hkeep.
    destruct st1; cbn; auto.
Qed.

Lemma member_ok_stored key v store s :
  member_ok (key, v) →
  find_field SignInAttempt_fields key = Some store →
  snd (store v s) = Stored.
Proof.
  unfold member_ok, Unmarshal_SignInAttempt, unmarshal_SignInAttempt.
  cbn [struct_into object_into]. intros Hok Hf. rewrite Hf in Hok.
  pose proof Hf as Hin. apply find_field_some in Hin as (name & Hin & _).
  rewrite (SignInAttempt_fields_steady _ _ Hin v s zero_SignInAttempt).
  destruct (store v zero_SignInAttempt) as [s1 st1].
  now destruct st1.
Qed.

Lemma object_into_ok members :
  Forall member_ok members →
  ∀ s, snd (object_into SignInAttempt_fields members s None) = Stored.
Proof.
  induction 1 as [|[key v] members Hok _ IH]; intros s; cbn.
  - reflexivity.
  - destruct (find_field SignInAttempt_fields key) as [store|] eqn:Hf;
      [|apply IH].
    pose proof (member_ok_stored _ _ _ s Hok Hf) as Hst.
    destruct (store v s) as [s1 st1]. cbn in Hst. subst st1. apply IH.
Qed.

Lemma Unmarshal_SignInAttempt_object members :
  Unmarshal_SignInAttempt (JObject members)
  = (fst (object_into SignInAttempt_fields members zero_SignInAttempt None),
     error_of (snd (object_into SignInAttempt_fields members
                                zero_SignInAttempt None))).
Proof.
  unfold Unmarshal_SignInAttempt, unmarshal_SignInAttempt.
  cbn [struct_into]. now destruct (object_into _ _ _ _).
Qed.

(** C8: decoding a sign-in attempt from an object that has no details
    object (no such member, or a null one) leaves the field nil (not a
    pointer to an empty [SignInAttemptDetails]) and is no error when the
    members that are there decode; and a sign-in attempt whose [Details]
    is nil, once encoded (the member is written as null), decodes to one
    whose [Details] is nil again, with no error unless the time stamp
    that was written does not read back. *)
Theorem absent_details_stay_absent :
  (∀ members,
     lacks_details members →
     SignInAttempt_Details
       (fst (Unmarshal_SignInAttempt (JObject members))) = None
     ∧ (Forall member_ok members →
        snd (Unmarshal_SignInAttempt (JObject members)) = None))
  ∧ (∀ s timestamp,
       SignInAttempt_Details s = None →
       Time_MarshalJSON (SignInAttempt_Timestamp s) = inr timestamp →
       ∃ j, Marshal_SignInAttempt s = inr j
            ∧ SignInAttempt_Details (fst (Unmarshal_SignInAttempt j)) = None
            ∧ snd (Unmarshal_SignInAttempt j)
              = error_of (snd (time_into timestamp zeroTime))).
Proof.
  split.
  - intros members Hlacks. rewrite Unmarshal_SignInAttempt_object.
    cbn [fst snd]. split.
    + now apply object_into_keeps_Details_nil.
    + intros Hok. now rewrite object_into_ok.
  - intros s timestamp Hnil Htime. unfold Marshal_SignInAttempt.
    rewrite Htime, Hnil. eexists. split; [reflexivity|].
    rewrite Unmarshal_SignInAttempt_object.
    cbn -[time_into]. unfold field. cbn -[time_into].
    destruct (time_into timestamp zeroTime) as [t st].
    now destruct st.
Qed.
End Decoding.

(** ** The properties at work on the test double *)

Import Fake.

Lemma credential_error_stops_the_call_witness :
  credential_error "not a token" = Some (errors_New "token is malformed")
  ∧ SignInAttempts background "not a token" "" (world [ok "{}"])
    = (Returned (None, Some (wrapError
         "failed to create new API request. token is malformed"
         (errors_New "token is malformed"))), world [ok "{}"]).
Proof.
  split; [reflexivity|].
  apply (credential_error_stops_the_call background "not a token" ""
           (world [ok "{}"]) (errors_New "token is malformed")).
  reflexivity.
Defined.

Lemma non_200_is_an_error_with_the_status_witness :
  fst (Introspect background token (world [unauthorized]))
  = Returned (None, Some (errors_New
                            "unexpected status code: 401 Unauthorized"))
  ∧ fst (SignInAttempts background token "" (world [unauthorized]))
    = Returned (None, Some (errors_New
                              "unexpected status code: 401 Unauthorized"))
  ∧ fst (ItemUsages background token "" (world [unauthorized]))
    = Returned (None, Some (errors_New
                              "unexpected status code: 401 Unauthorized")).
Proof.
  destruct (non_200_is_an_error_with_the_status background token ""
              (world [unauthorized])) as (Hintrospect & Hsignin & Husages).
  split; [|split].
  - apply (Hintrospect "https://events.example/api/auth/introspect"
                       reply_unauthorized []);
      [reflexivity|reflexivity|discriminate].
  - apply (Hsignin "https://events.example/api/v1/signinattempts"
                   reply_unauthorized []);
      [reflexivity|reflexivity|discriminate].
  - apply (Husages "https://events.example/api/v1/itemusages"
                   reply_unauthorized []);
      [reflexivity|reflexivity|discriminate].
Defined.

Lemma undecodable_batch_is_dropped_witness :
  Decode_SignInAttemptResponse "" zero_SignInAttemptResponse
  = (zero_SignInAttemptResponse, Some (errors_New "EOF"))
  ∧ (∃ failure,
       fst (SignInAttempts background token "" (world [ok ""]))
       = Returned (None, Some failure)
       ∧ (200 = 200 →
          failure = fmt_Errorf_w "failed to unmarshal response. "
                                 (errors_New "EOF")))
  ∧ (∃ failure,
       fst (ItemUsages background token "" (world [ok ""]))
       = Returned (None, Some failure)
       ∧ (200 = 200 →
          failure = fmt_Errorf_w "failed to unmarshal response. "
                                 (errors_New "EOF"))).
Proof.
  destruct (undecodable_batch_is_dropped background token "" (world [ok ""]))
    as (Hsignin & Husages).
  split; [reflexivity|split].
  - apply (Hsignin "https://events.example/api/v1/signinattempts"
                   (reply_ok "") [] zero_SignInAttemptResponse
                   (errors_New "EOF")); reflexivity.
  - apply (Husages "https://events.example/api/v1/itemusages"
                   (reply_ok "") [] zero_ItemUsageResponse
                   (errors_New "EOF")); reflexivity.
Defined.

Lemma response_body_is_closed_witness :
  bodies (snd (Introspect background token (world [ok "{}"])))
  = [{| content := "{}"; closed := true |}]
  ∧ bodies (snd (SignInAttempts background token "" (world [unauthorized])))
    = [{| content := ""; closed := true |}]
  ∧ bodies (snd (ItemUsages background token "" (world [ok ""])))
    = [{| content := ""; closed := true |}].
Proof.
  split; [|split].
  - apply (proj1 (response_body_is_closed background token ""
                                          (world [ok "{}"]))
                  "https://events.example/api/auth/introspect"
                  (reply_ok "{}") []); reflexivity.
  - apply (proj1 (proj2 (response_body_is_closed background token ""
                                                 (world [unauthorized])))
                  "https://events.example/api/v1/signinattempts"
                  reply_unauthorized []); reflexivity.
  - apply (proj2 (proj2 (response_body_is_closed background token ""
                                                 (world [ok ""])))
                  "https://events.example/api/v1/itemusages"
                  (reply_ok "") []); reflexivity.
Defined.

Lemma Introspect_decodes_a_closed_body_witness :
  snd (Decode_IntrospectResponse "{}" zero_IntrospectResponse) = None
  ∧ fst (Introspect background token (world [ok "{}"]))
    = Returned (None, Some (wrapError
        "failed to unmarshal response. http: read on closed response body"
        (errors_New "http: read on closed response body"))).
Proof.
  split; [reflexivity|].
  apply (Introspect_decodes_a_closed_body background token (world [ok "{}"])
           "https://events.example/api/auth/introspect" (reply_ok "{}") []);
    reflexivity.
Defined.

Lemma newAPIRequest_dereferences_nil_witness :
  url_Parse ("https://events example" +:+ "/api/auth/introspect")
  = inl (errors_New "net/url: invalid character in host name")
  ∧ newAPIRequest background http_MethodGet "jwt:https://events example"
      "/api/auth/introspect" None (world [])
    = (Panicked nil_dereference, world []).
Proof.
  split; [reflexivity|].
  apply (newAPIRequest_dereferences_nil background http_MethodGet
           "jwt:https://events example" "/api/auth/introspect" None
           (world []) (Some "https://events example")
           "https://events example"
           (errors_New "net/url: invalid character in host name"));
    reflexivity.
Defined.

Lemma fetches_post_the_cursor_witness :
  api_request background http_MethodPost
    "https://events.example/api/v1/signinattempts" token (Some "")
  ∈ issued (SignInAttempts background token "") (world [ok "{}"])
  ∧ target token "/api/v1/signinattempts"
    = Some "https://events.example/api/v1/signinattempts"
  ∧ api_request background http_MethodPost
      "https://events.example/api/v1/itemusages" token (Some "cursor")
    ∈ issued (ItemUsages background token "cursor") (world [unauthorized])
  ∧ (∃ r, issued (ItemUsages background token "cursor")
                 (world [unauthorized]) = [r]).
Proof.
  assert (api_request background http_MethodPost
            "https://events.example/api/v1/signinattempts" token (Some "")
          ∈ issued (SignInAttempts background token "") (world [ok "{}"]))
    as Hsignin by (vm_compute; constructor).
  assert (api_request background http_MethodPost
            "https://events.example/api/v1/itemusages" token (Some "cursor")
          ∈ issued (ItemUsages background token "cursor")
                   (world [unauthorized]))
    as Husages by (vm_compute; constructor).
  destruct (fetches_post_the_cursor background token ""
              (world [ok "{}"])) as (Hshape & _).
  destruct (fetches_post_the_cursor background token "cursor"
              (world [unauthorized])) as (_ & _ & _ & Hsent & _).
  split; [exact Hsignin|]. split; [exact (proj1 (proj2 (Hshape _ Hsignin)))|].
  split; [exact Husages|].
  exact (Hsent "https://events.example/api/v1/itemusages" eq_refl).
Defined.

Lemma requests_carry_token_and_user_agent_witness :
  (∀ r, r ∈ issued (Introspect background token) (world [ok "{}"]) →
        Header_Get "Authorization" (Hdr r)
        = "Bearer jwt:https://events.example"
        ∧ Header_Get "User-Agent" (Hdr r)
          = "1Password Events API Beats / 0.0.0")
  ∧ issued (Introspect background token) (world [ok "{}"])
    = [api_request background http_MethodGet
         "https://events.example/api/auth/introspect" token None].
Proof.
  split; [|vm_compute; reflexivity].
  exact (proj1 (requests_carry_token_and_user_agent background token ""
                  (world [ok "{}"]))).
Defined.

Lemma absent_details_stay_absent_witness :
  lacks_details [("uuid", JString "u"); ("Country", JString "CA")]
  ∧ Unmarshal_SignInAttempt
      (JObject [("uuid", JString "u"); ("Country", JString "CA")])
    = ({| SignInAttempt_UUID := "u";
          SignInAttempt_SessionUUID := "";
          SignInAttempt_Timestamp := zeroTime;
          SignInAttempt_Country := "CA";
          SignInAttempt_Category := "";
          SignInAttempt_Type := "";
          SignInAttempt_Details := None;
          SignInAttempt_SignInAttemptTargetUser := zero_SignInAttemptTargetUser;
          SignInAttempt_SignInAttemptClient := zero_SignInAttemptClient |},
       None)
  ∧ (∃ j, Marshal_SignInAttempt zero_SignInAttempt = inr j
          ∧ SignInAttempt_Details (fst (Unmarshal_SignInAttempt j)) = None
          ∧ snd (Unmarshal_SignInAttempt j) = None).
Proof.
  assert (lacks_details [("uuid", JString "u"); ("Country", JString "CA")])
    as Hlacks.
  { constructor; [right; split; [discriminate|reflexivity]|].
    constructor; [right; split; [discriminate|reflexivity]|].
    constructor. }
  destruct absent_details_stay_absent as (Hdecode & Hround).
  destruct (Hdecode _ Hlacks) as (Hnil & Hok).
  split; [exact Hlacks|]. split.
  - apply injective_projections; [vm_compute; reflexivity|].
    apply Hok. repeat constructor.
  - exact (Hround zero_SignInAttempt (JString zeroTime) eq_refl eq_refl).
Defined.

Lemma SignInAttempts_twice_witness :
  fst (SignInAttempts background token "cursor"
         (snd (SignInAttempts background token "cursor"
                 (world [ok "page"; ok "page"]))))
  = fst (SignInAttempts background token "cursor"
           (world [ok "page"; ok "page"])).
Proof.
  apply SignInAttempts_twice. intros r. reflexivity.
Defined.

(** * Further properties of the package *)

(** ** The three operations, beyond the claims *)

Section MoreOperations.
Context `{Platform}.

Lemma canonical_Authorization :
  CanonicalMIMEHeaderKey "Authorization" = "Authorization".
Proof. reflexivity. Qed.

Lemma canonical_User_Agent :
  CanonicalMIMEHeaderKey "User-Agent" = "User-Agent".
Proof. reflexivity. Qed.

Lemma api_request_Hdr ctx method u bearerToken body :
  Hdr (api_request ctx method u bearerToken body)
  = <["User-Agent" := [DefaultUserAgent]]>
      (<["Authorization" := ["Bearer " +:+ bearerToken]]> ∅).
Proof.
  unfold api_request; cbn [Hdr]. unfold Header_Add.
  rewrite canonical_Authorization, canonical_User_Agent.
  rewrite lookup_empty. rewrite lookup_insert_ne by discriminate.
  rewrite lookup_empty. reflexivity.
Qed.

(** What a call leaves behind, whatever the token and the answer. *)
Lemma exchange_frame {T} method path body
    (on_200 : Reply → option T * option error) ctx bearerToken w :
  let w' := snd (exchange method path body on_200 ctx bearerToken w) in
  let requests := drop (length (sent w)) (sent w') in
  sent w' = (sent w ++ requests)%list
  ∧ (length requests ≤ 1)%nat
  ∧ ∃ new, bodies w' = (bodies w ++ new)%list
           ∧ (length new ≤ length requests)%nat
           ∧ Forall (λ b, closed b = true) new.
Proof.
  cbn zeta. rewrite exchange_issued. unfold exchange, target.
  destruct (ParseJWTClaims bearerToken) as [e|jwt];
    [cbn; rewrite !app_nil_r; split; [|split]; auto;
     exists []; now rewrite app_nil_r|].
  destruct (GetEventsURL jwt) as [e|url];
    [cbn; rewrite !app_nil_r; split; [|split]; auto;
     exists []; now rewrite app_nil_r|].
  destruct (url_Parse _) as [e|u];
    [cbn; rewrite !app_nil_r; split; [|split]; auto;
     exists []; now rewrite app_nil_r|].
  cbn zeta.
  destruct (RoundTrip _ _) as [[e|reply] t]; cbn [snd];
    unfold answered, unanswered; cbn [sent bodies length];
    (split; [reflexivity|split; [lia|]]).
  - exists []. rewrite app_nil_r. cbn. auto.
  - eexists. split; [reflexivity|]. cbn. split; [lia|].
    repeat constructor.
Qed.

Lemma exchange_one_of_two {T} method path body
    (on_200 : Reply → option T * option error) ctx bearerToken w res err :
  (∀ reply, is_Some (fst (on_200 reply)) ↔ snd (on_200 reply) = None) →
  fst (exchange method path body on_200 ctx bearerToken w)
  = Returned (res, err) →
  is_Some res ↔ err = None.
Proof.
  intros Hon. unfold exchange.
  assert (∀ e : error, is_Some (@None T) ↔ Some e = None) as Herr.
  { intros e. split; [intros [x Hx]|]; discriminate. }
  destruct (ParseJWTClaims bearerToken) as [e|jwt];
    [intros [= <- <-]; apply Herr|].
  destruct (GetEventsURL jwt) as [e|url];
    [intros [= <- <-]; apply Herr|].
  destruct (url_Parse _) as [e|u]; [discriminate|].
  cbn zeta.
  destruct (RoundTrip _ _) as [[e|reply] t]; cbn [fst].
  - intros [= <- <-]; apply Herr.
  - destruct (reply_code reply =? 200)%Z.
    + specialize (Hon reply). destruct (on_200 reply) as [r e].
      now intros [= <- <-].
    + intros [= <- <-]; apply Herr.
Qed.

Lemma decoded_one_of_two {T} (decode : string → T → T * option error)
    zero reply :
  is_Some (fst (decoded decode zero reply))
  ↔ snd (decoded decode zero reply) = None.
Proof.
  unfold decoded. destruct (decode _ _) as [v [e|]]; cbn.
  - split; [intros [x Hx]|]; discriminate.
  - split; eauto.
Qed.

Lemma read_after_close_one_of_two {T} reply :
  is_Some (fst (@read_after_close T reply))
  ↔ snd (@read_after_close T reply) = None.
Proof. cbn. split; [intros [x Hx]|]; discriminate. Qed.



(** X1: when [http.Client.Do] fails, each operation returns nil and that
    very error, not wrapped; the request counts as sent and no response
    body has come into being. *)
Theorem transport_error_is_returned_as_is ctx bearerToken cursor w :
  (∀ u err t,
     target bearerToken "/api/auth/introspect" = Some u →
     let r := api_request ctx http_MethodGet u bearerToken None in
     RoundTrip (transport w) r = (inl err, t) →
     Introspect ctx bearerToken w
     = (Returned (None, Some err),
        {| transport := t; sent := (sent w ++ [r])%list;
           bodies := bodies w |}))
  ∧ (∀ u err t,
     target bearerToken "/api/v1/signinattempts" = Some u →
     let r := api_request ctx http_MethodPost u bearerToken (Some cursor) in
     RoundTrip (transport w) r = (inl err, t) →
     SignInAttempts ctx bearerToken cursor w
     = (Returned (None, Some err),
        {| transport := t; sent := (sent w ++ [r])%list;
           bodies := bodies w |}))
  ∧ (∀ u err t,
     target bearerToken "/api/v1/itemusages" = Some u →
     let r := api_request ctx http_MethodPost u bearerToken (Some cursor) in
     RoundTrip (transport w) r = (inl err, t) →
     ItemUsages ctx bearerToken cursor w
     = (Returned (None, Some err),
        {| transport := t; sent := (sent w ++ [r])%list;
           bodies := bodies w |})).
Proof.
  rewrite Introspect_run, SignInAttempts_run, ItemUsages_run.
  repeat split; intros u err t Ht r Hr;
    rewrite (exchange_sent _ _ _ _ _ _ _ _ Ht); cbn zeta; fold r;
    rewrite Hr; reflexivity.
Qed.

(** X2: on a 200 response whose body decodes, SignInAttempts and
    ItemUsages return the decoded batch and a nil error. *)
Theorem decoded_batch_is_returned ctx bearerToken cursor w :
  (∀ u reply t batch,
     target bearerToken "/api/v1/signinattempts" = Some u →
     RoundTrip (transport w)
       (api_request ctx http_MethodPost u bearerToken (Some cursor))
     = (inr reply, t) →
     reply_code reply = 200 →
     Decode_SignInAttemptResponse (reply_body reply)
       zero_SignInAttemptResponse = (batch, None) →
     fst (SignInAttempts ctx bearerToken cursor w)
     = Returned (Some batch, None))
  ∧ (∀ u reply t batch,
     target bearerToken "/api/v1/itemusages" = Some u →
     RoundTrip (transport w)
       (api_request ctx http_MethodPost u bearerToken (Some cursor))
     = (inr reply, t) →
     reply_code reply = 200 →
     Decode_ItemUsageResponse (reply_body reply)
       zero_ItemUsageResponse = (batch, None) →
     fst (ItemUsages ctx bearerToken cursor w)
     = Returned (Some batch, None)).
Proof.
  rewrite SignInAttempts_run, ItemUsages_run.
  split; intros u reply t batch Ht Hr Hcode Hd;
    rewrite (exchange_sent _ _ _ _ _ _ _ _ Ht); cbn zeta;
    rewrite Hr, Hcode; unfold decoded; rewrite Hd; reflexivity.
Qed.

(** X3: whatever the token, the cursor and the answer, and also when
    the call panics, a call hands at most one request to the transport
    (there is no retry at this level); the requests sent and the
    response bodies present before the call are still there, unchanged
    and in place; at most one body is added, and only next to a request;
    a body that is added is closed when the call ends. *)
Theorem a_call_sends_at_most_one_request ctx bearerToken cursor w :
  let kept {A} (call : Go A) :=
    let w' := snd (call w) in
    sent w' = (sent w ++ issued call w)%list
    ∧ (length (issued call w) ≤ 1)%nat
    ∧ ∃ new, bodies w' = (bodies w ++ new)%list
             ∧ (length new ≤ length (issued call w))%nat
             ∧ Forall (λ b, closed b = true) new in
  kept (Introspect ctx bearerToken)
  ∧ kept (SignInAttempts ctx bearerToken cursor)
  ∧ kept (ItemUsages ctx bearerToken cursor).
Proof.
  intros kept. unfold kept, issued.
  rewrite Introspect_run, SignInAttempts_run, ItemUsages_run.
  split; [|split]; apply exchange_frame.
Qed.

(** X4: a request Introspect sends is a GET, without a body, to the
    events URL of the token followed by /api/auth/introspect; it is
    sent whenever the token leads to such a URL. *)
Theorem Introspect_gets_without_a_body ctx bearerToken w :
  (∀ r, r ∈ issued (Introspect ctx bearerToken) w →
        Method r = "GET"
        ∧ target bearerToken "/api/auth/introspect" = Some (Url r)
        ∧ Body r = None)
  ∧ (∀ u, target bearerToken "/api/auth/introspect" = Some u →
          ∃ r, issued (Introspect ctx bearerToken) w = [r]).
Proof.
  unfold issued. rewrite Introspect_run, exchange_issued. split.
  - intros r Hr. now destruct (issued_shape _ _ _ _ _ _ Hr) as (-> & -> & ->).
  - intros u ->. eauto.
Qed.

(** X5: a call that returns gives back a result or an error, never both
    and never neither. *)
Theorem a_result_or_an_error ctx bearerToken cursor w :
  (∀ res err, fst (Introspect ctx bearerToken w) = Returned (res, err) →
              is_Some res ↔ err = None)
  ∧ (∀ res err,
       fst (SignInAttempts ctx bearerToken cursor w) = Returned (res, err) →
       is_Some res ↔ err = None)
  ∧ (∀ res err,
       fst (ItemUsages ctx bearerToken cursor w) = Returned (res, err) →
       is_Some res ↔ err = None).
Proof.
  rewrite Introspect_run, SignInAttempts_run, ItemUsages_run.
  split; [|split]; intros res err; apply exchange_one_of_two;
    auto using decoded_one_of_two, read_after_close_one_of_two.
Qed.


(** X7: the header of a request that one of the operations sends holds
    exactly two entries, each with one value: Authorization and
    User-Agent.  In particular no Content-Type is set for the cursor
    that the two fetches post. *)
Theorem a_request_has_two_headers ctx bearerToken cursor w :
  let two_headers (r : Request) :=
    Hdr r = <["User-Agent" := ["1Password Events API Beats / " +:+ Version]]>
              (<["Authorization" := ["Bearer " +:+ bearerToken]]> ∅)
    ∧ Header_Get "Content-Type" (Hdr r) = "" in
  (∀ r, r ∈ issued (Introspect ctx bearerToken) w → two_headers r)
  ∧ (∀ r, r ∈ issued (SignInAttempts ctx bearerToken cursor) w →
          two_headers r)
  ∧ (∀ r, r ∈ issued (ItemUsages ctx bearerToken cursor) w →
          two_headers r).
Proof.
  intros two_headers. unfold issued, two_headers.
  rewrite Introspect_run, SignInAttempts_run, ItemUsages_run.
  rewrite !exchange_issued.
  assert (∀ method path body r,
            r ∈ match target bearerToken path with
                | Some u => [api_request ctx method u bearerToken body]
                | None => []
                end →
            Hdr r = <["User-Agent" := [DefaultUserAgent]]>
                      (<["Authorization" := ["Bearer " +:+ bearerToken]]> ∅)
            ∧ Header_Get "Content-Type" (Hdr r) = "") as Hall.
  { intros method path body r Hr.
    destruct (target bearerToken path) as [u|];
      [|now apply not_elem_of_nil in Hr].
    apply list_elem_of_singleton in Hr. subst r.
    rewrite api_request_Hdr. split; [reflexivity|].
    unfold Header_Get.
    change (CanonicalMIMEHeaderKey "Content-Type") with "Content-Type".
    rewrite !lookup_insert_ne by discriminate.
    now rewrite lookup_empty. }
  split; [|split]; intros r Hr; eapply Hall, Hr.
Qed.

(** X8: what C9 says of SignInAttempts holds of Introspect and of
    ItemUsages too: two calls with the same arguments return the same
    whenever the transport answers both alike, whatever else differs
    between the worlds they start in. *)
Theorem Introspect_and_ItemUsages_twice ctx bearerToken cursor w w' :
  (∀ r, fst (RoundTrip (transport w') r)
        = fst (RoundTrip (transport w) r)) →
  fst (Introspect ctx bearerToken w') = fst (Introspect ctx bearerToken w)
  ∧ fst (ItemUsages ctx bearerToken cursor w')
    = fst (ItemUsages ctx bearerToken cursor w).
Proof.
  intros Hsame. rewrite !Introspect_run, !ItemUsages_run.
  split; now apply exchange_same_answer.
Qed.

(** X9: [newAPIRequest] does no I/O: whatever its arguments, and also
    when it panics, the world after it is the world before it.  When it
    returns a request, the error beside it is nil and the request has
    the context and the body it was given and the method it was given,
    or GET when that was empty. *)
Theorem newAPIRequest_only_builds c method bearerToken path body w :
  snd (newAPIRequest c method bearerToken path body w) = w
  ∧ (∀ r err,
       fst (newAPIRequest c method bearerToken path body w)
       = Returned (Some r, err) →
       err = None
       ∧ ctx r = c
       ∧ Method r = (if String.eqb method "" then "GET" else method)
       ∧ Body r = body
       ∧ target bearerToken path = Some (Url r)).
Proof.
  unfold newAPIRequest, NewRequestWithContext, target.
  destruct (ParseJWTClaims bearerToken) as [e|jwt];
    [split; [reflexivity|discriminate]|].
  destruct (GetEventsURL jwt) as [e|url];
    [split; [reflexivity|discriminate]|].
  destruct (negb (validMethod _)); [split; [reflexivity|discriminate]|].
  destruct (url_Parse _) as [e|u]; [split; [reflexivity|discriminate]|].
  split; [reflexivity|]. intros r err [= <- <-]. auto.
Qed.
End MoreOperations.

(** ** Decoding and encoding the events, beyond the claims *)

Section MoreDecoding.
Context `{Platform}.

Lemma ParseUint32_range lit n :
  ParseUint32 lit = Some n → (0 ≤ n ≤ math_MaxUint32)%Z.
Proof.
  unfold ParseUint32. destruct (String.eqb lit ""); [discriminate|].
  destruct (NilEmpty.uint_of_string lit) as [d|]; [|discriminate].
  cbn zeta.
  destruct (Z.of_N (N.of_uint d) <=? math_MaxUint32)%Z eqn:Hle;
    [|discriminate].
  intros [= <-]. apply Z.leb_le in Hle. lia.
Qed.

Lemma FormatUint_nonempty n : FormatUint n ≠ "".
Proof.
  unfold FormatUint.
  assert (N.to_uint (Z.to_N n) ≠ Decimal.Nil) as Hnonnil.
  { destruct (Z.to_N n) as [|p]; [discriminate|].
    apply DecimalPos.Unsigned.to_uint_nonnil. }
  destruct (N.to_uint (Z.to_N n)); [contradiction| ..]; discriminate.
Qed.

Lemma ParseUint32_FormatUint n :
  (0 ≤ n ≤ math_MaxUint32)%Z → ParseUint32 (FormatUint n) = Some n.
Proof.
  intros Hn. unfold ParseUint32.
  destruct (String.eqb (FormatUint n) "") eqn:Hempty.
  - apply String.eqb_eq in Hempty. now apply FormatUint_nonempty in Hempty.
  - unfold FormatUint. rewrite NilEmpty.usu. cbn zeta.
    rewrite DecimalN.Unsigned.of_to, Z2N.id by lia.
    destruct (n <=? math_MaxUint32)%Z eqn:Hle; [reflexivity|].
    apply Z.leb_gt in Hle. lia.
Qed.

Lemma time_into_reads_back j t t0 :
  j ≠ JNull → Time_UnmarshalJSON j = inr t → time_into j t0 = (t, Stored).
Proof.
  intros Hj Hu. unfold time_into. rewrite Hu. now destruct j.
Qed.

(** Members without a field leave no trace. *)
Lemma object_into_known {S}
    (fields : list (string * (json → S → S * status))) members :
  ∀ s saved,
    object_into fields (List.filter (known fields) members) s saved
    = object_into fields members s saved.
Proof.
  induction members as [|[key v] members IH]; intros s saved; cbn.
  - reflexivity.
  - unfold known at 1. cbn [fst].
    destruct (find_field fields key) as [store|] eqn:Hf; [|apply IH].
    cbn. rewrite Hf. destruct (store v s) as [s1 st1].
    destruct st1; auto.
Qed.

(** A property of the struct that every store keeps is kept by the
    decoding of an object. *)
Lemma object_into_preserves {S} (P : S → Prop)
    (fields : list (string * (json → S → S * status))) :
  (∀ name store v s,
     In (name, store) fields → P s → P (fst (store v s))) →
  ∀ members s saved, P s → P (fst (object_into fields members s saved)).
Proof.
  intros Hfields members.
  induction members as [|[key v] members IH]; intros s saved Hs; cbn.
  - exact Hs.
  - destruct (find_field fields key) as [store|] eqn:Hf; [|now apply IH].
    apply find_field_some in Hf as (name & Hin & _).
    pose proof (Hfields _ _ v s Hin Hs) as Hs1.
    destruct (store v s) as [s1 st1]. cbn in Hs1.
    destruct st1; cbn; auto.
Qed.

(** Members that decode are followed by the rest, nothing kept. *)
Lemma object_into_ok_app members rest :
  Forall member_ok members →
  ∀ s,
    object_into SignInAttempt_fields (members ++ rest)%list s None
    = object_into SignInAttempt_fields rest
        (fst (object_into SignInAttempt_fields members s None)) None.
Proof.
  induction 1 as [|[key v] members Hok _ IH]; intros s; cbn.
  - reflexivity.
  - destruct (find_field SignInAttempt_fields key) as [store|] eqn:Hf;
      [|apply IH].
    pose proof (member_ok_stored _ _ _ s Hok Hf) as Hst.
    destruct (store v s) as [s1 st1]. cbn in Hst. subst st1. apply IH.
Qed.

Ltac field_by_field Hin :=
  cbn in Hin;
  repeat (destruct Hin as [Hin|Hin];
          [injection Hin as <- <-|]);
  [..|contradiction].

Lemma Unmarshal_ItemUsage_object members :
  Unmarshal_ItemUsage (JObject members)
  = (fst (object_into ItemUsage_fields members zero_ItemUsage None),
     error_of (snd (object_into ItemUsage_fields members
                                zero_ItemUsage None))).
Proof.
  unfold Unmarshal_ItemUsage, unmarshal_ItemUsage.
  cbn [struct_into]. now destruct (object_into _ _ _ _).
Qed.

(** X10: a sign-in attempt whose time stamp reads back is encoded
    without error, and decoding what was written gives the sign-in
    attempt back, field for field, with no error: [Details] nil or not,
    the nested user and client, and each string as [json.Marshal]
    writes it (invalid UTF-8 replaced).  No two fields of the struct
    get in each other's way. *)
Theorem SignInAttempt_round_trip (s : SignInAttempt) :
  reads_back (SignInAttempt_Timestamp s) →
  ∃ j, Marshal_SignInAttempt s = inr j
       ∧ Unmarshal_SignInAttempt j = (sanitized_SignInAttempt s, None).
Proof.
  intros (ts & Hm & Hnull & Hu). unfold Marshal_SignInAttempt.
  rewrite Hm. eexists. split; [reflexivity|].
  rewrite Unmarshal_SignInAttempt_object.
  cbn -[time_into]. unfold field. cbn -[time_into].
  rewrite (time_into_reads_back _ _ _ Hnull Hu).
  destruct (SignInAttempt_Details s) as [d|] eqn:Hd; cbn;
    unfold sanitized_SignInAttempt; rewrite Hd; reflexivity.
Qed.

(** X11: an item usage whose time stamp reads back and whose
    [UsedVersion] is a [uint32] is encoded without error, and decoding
    what was written gives it back, field for field, with no error; the
    version is written in decimal and read back as the same number. *)
Theorem ItemUsage_round_trip (s : ItemUsage) :
  reads_back (ItemUsage_Timestamp s) →
  (0 ≤ ItemUsage_UsedVersion s ≤ math_MaxUint32)%Z →
  ∃ j, Marshal_ItemUsage s = inr j
       ∧ Unmarshal_ItemUsage j = (sanitized_ItemUsage s, None).
Proof.
  intros (ts & Hm & Hnull & Hu) Hversion. unfold Marshal_ItemUsage.
  rewrite Hm. eexists. split; [reflexivity|].
  rewrite Unmarshal_ItemUsage_object.
  cbn -[time_into ParseUint32 FormatUint]. unfold field.
  cbn -[time_into ParseUint32 FormatUint].
  rewrite (time_into_reads_back _ _ _ Hnull Hu).
  cbn -[ParseUint32 FormatUint].
  rewrite (ParseUint32_FormatUint _ Hversion).
  reflexivity.
Qed.

(** X12: whatever JSON value an item usage is decoded from, with or
    without error, its [UsedVersion] is a [uint32], between 0 and
    4294967295: a number outside of that range is never stored. *)
Theorem UsedVersion_is_a_uint32 (v : json) :
  (0 ≤ ItemUsage_UsedVersion (fst (Unmarshal_ItemUsage v))
     ≤ math_MaxUint32)%Z.
Proof.
  assert (0 ≤ ItemUsage_UsedVersion zero_ItemUsage ≤ math_MaxUint32)%Z
    as Hzero by (cbn; unfold math_MaxUint32; lia).
  destruct v; try exact Hzero.
  rewrite Unmarshal_ItemUsage_object. cbn [fst].
  apply (object_into_preserves
           (λ s, (0 ≤ ItemUsage_UsedVersion s ≤ math_MaxUint32)%Z));
    [|exact Hzero].
  intros name store v s Hin Hs.
  field_by_field Hin; unfold field;
    try (match goal with
         | |- context [let '(_, _) := ?store v ?a in _] =>
             now destruct (store v a)
         end).
  unfold uint32_into.
  destruct v; try exact Hs.
  destruct (ParseUint32 lit) as [n|] eqn:Hparse; [|exact Hs].
  cbn. now apply ParseUint32_range in Hparse.
Qed.

(** X13: members whose key belongs to no field of the struct (neither
    by name nor under case folding) are skipped: a sign-in attempt or an
    item usage decodes to the same value, with the same error or none,
    as from the object without these members. *)
Theorem unknown_members_are_skipped (members : list (string * json)) :
  Unmarshal_SignInAttempt (JObject members)
  = Unmarshal_SignInAttempt
      (JObject (List.filter (known SignInAttempt_fields) members))
  ∧ Unmarshal_ItemUsage (JObject members)
    = Unmarshal_ItemUsage
        (JObject (List.filter (known ItemUsage_fields) members)).
Proof.
  rewrite !Unmarshal_SignInAttempt_object, !Unmarshal_ItemUsage_object.
  now rewrite !object_into_known.
Qed.

(** X14: a details object with a string value, coming after members
    that decode, gives a sign-in attempt whose [Details] is not nil and
    holds that value, whatever [details] members came before it, and no
    error. *)
Theorem details_present (members : list (string * json)) (value : string) :
  Forall member_ok members →
  let j := JObject (members ++ [("details",
                                 JObject [("value", JString value)])])%list in
  SignInAttempt_Details (fst (Unmarshal_SignInAttempt j))
  = Some {| SignInAttemptDetails_Value := value |}
  ∧ snd (Unmarshal_SignInAttempt j) = None.
Proof.
  intros Hok j. unfold j. rewrite Unmarshal_SignInAttempt_object.
  cbn [fst snd]. rewrite (object_into_ok_app _ _ Hok).
  generalize (fst (object_into SignInAttempt_fields members
                               zero_SignInAttempt None)).
  intros s. cbn. unfold field. cbn. auto.
Qed.
End MoreDecoding.

(** ** Building the client *)

Section MoreClient.
Context `{HTTPLibrary}.

(** X15: [NewClient] never fails: it returns a client and a nil error.
    The client sends through the retrying client of the library, which
    has got the logger that was passed and has kept its retry settings
    and the settings of its inner [http.Client]; [HTTPClient] hands out
    that same client. *)
Theorem NewClient_never_fails (logger : Logger) (insecureSkipVerify : bool) :
  ∃ c retrying,
    NewClient logger insecureSkipVerify = (Some c, None)
    ∧ HTTPClient c = StandardClient retrying
    ∧ retry_Logger retrying = logger
    ∧ retry_settings retrying = retry_settings retryablehttp_NewClient
    ∧ client_settings (retry_HTTPClient retrying)
      = client_settings (retry_HTTPClient retryablehttp_NewClient).
Proof.
  unfold NewClient. cbn zeta. cbn [retry_HTTPClient].
  destruct (http_Client_Transport (retry_HTTPClient retryablehttp_NewClient))
    as [[t|c|o]|]; [destruct insecureSkipVerify|..];
    eexists; eexists; (split; [reflexivity|]); cbn; auto.
Qed.

(** X16: certificate verification is touched only on request and only
    where it can be reached.  Without [insecureSkipVerify] the inner
    [http.Client] of the library is passed on as it is.  With it, and
    with an [*http.Transport] as the transport of that client, the
    transport gets a TLS configuration that has [InsecureSkipVerify] set
    and nothing else, in place of whatever it had, and keeps its other
    settings.  With it, and with any other transport, the request is
    dropped silently: the client is passed on as it is. *)
Theorem NewClient_skips_verification_on_request (logger : Logger) :
  let inner (insecureSkipVerify : bool) :=
    match fst (NewClient logger insecureSkipVerify) with
    | Some c =>
        match http_Client_Transport (HTTPClient c) with
        | Some (retryablehttp_RoundTripper retrying) =>
            Some (retry_HTTPClient retrying)
        | _ => None
        end
    | None => None
    end in
  let library := retry_HTTPClient retryablehttp_NewClient in
  inner false = Some library
  ∧ (∀ t, http_Client_Transport library
          = Some (http_Transport_RoundTripper t) →
          inner true
          = Some (Build_http_Client
                    (Some (http_Transport_RoundTripper
                       {| TLSClientConfig :=
                            Some {| InsecureSkipVerify := true;
                                    tls_settings := zero_TLSSettings |};
                          transport_settings := transport_settings t |}))
                    (client_settings library))
            ∧ skips_verification (Build_http_Client
                    (Some (http_Transport_RoundTripper
                       {| TLSClientConfig :=
                            Some {| InsecureSkipVerify := true;
                                    tls_settings := zero_TLSSettings |};
                          transport_settings := transport_settings t |}))
                    (client_settings library)) = true)
  ∧ ((∀ t, http_Client_Transport library
           ≠ Some (http_Transport_RoundTripper t)) →
     inner true = Some library).
Proof.
  intros inner library. unfold inner, library, NewClient. cbn zeta.
  cbn [retry_HTTPClient fst HTTPClient httpClient StandardClient
       http_Client_Transport].
  split; [|split].
  - now destruct (http_Client_Transport
                    (retry_HTTPClient retryablehttp_NewClient)) as [[t|c|o]|].
  - intros t ->. cbn. auto.
  - intros Hother.
    destruct (http_Client_Transport
                (retry_HTTPClient retryablehttp_NewClient)) as [[t|c|o]|];
      [now contradiction (Hother t)|reflexivity..].
Qed.
End MoreClient.

(** ** The further properties at work on the test doubles *)

Import FakeHTTP.

Lemma transport_error_is_returned_as_is_witness :
  SignInAttempts background token "cursor" (world [])
  = (Returned (None, Some (errors_New "connection refused")),
     {| transport := [];
        sent := [api_request background http_MethodPost
                   "https://events.example/api/v1/signinattempts" token
                   (Some "cursor")];
        bodies := [] |}).
Proof.
  apply (proj1 (proj2 (transport_error_is_returned_as_is background token
                         "cursor" (world [])))
           "https://events.example/api/v1/signinattempts"
           (errors_New "connection refused") []); reflexivity.
Defined.

Lemma decoded_batch_is_returned_witness :
  fst (SignInAttempts background token "" (world [ok "page"]))
  = Returned (Some {| SignInAttemptResponse_Cursor := "page";
                      SignInAttemptResponse_HasMore := false;
                      SignInAttemptResponse_Items := [] |}, None)
  ∧ fst (ItemUsages background token "" (world [ok "page"]))
    = Returned (Some {| ItemUsageResponse_Cursor := "page";
                        ItemUsageResponse_HasMore := false;
                        ItemUsageResponse_Items := [] |}, None).
Proof.
  destruct (decoded_batch_is_returned background token "" (world [ok "page"]))
    as (Hsignin & Husages).
  split.
  - apply (Hsignin "https://events.example/api/v1/signinattempts"
                   (reply_ok "page") []); reflexivity.
  - apply (Husages "https://events.example/api/v1/itemusages"
                   (reply_ok "page") []); reflexivity.
Defined.

Lemma Introspect_gets_without_a_body_witness :
  target token "/api/auth/introspect"
  = Some "https://events.example/api/auth/introspect"
  ∧ ∃ r, issued (Introspect background token) (world [ok "{}"]) = [r]
         ∧ Method r = "GET" ∧ Body r = None.
Proof.
  destruct (Introspect_gets_without_a_body background token (world [ok "{}"]))
    as (Hshape & Hsent).
  split; [reflexivity|].
  destruct (Hsent "https://events.example/api/auth/introspect" eq_refl)
    as (r & Hr).
  exists r. split; [exact Hr|].
  assert (r ∈ issued (Introspect background token) (world [ok "{}"]))
    as Hin by (rewrite Hr; apply list_elem_of_here).
  destruct (Hshape r Hin) as (Hmethod & _ & Hbody). auto.
Defined.

Lemma a_result_or_an_error_witness :
  fst (ItemUsages background token "" (world [unauthorized]))
  = Returned (None, Some (errors_New
                            "unexpected status code: 401 Unauthorized"))
  ∧ (is_Some (@None ItemUsageResponse)
     ↔ Some (errors_New "unexpected status code: 401 Unauthorized") = None).
Proof.
  split; [reflexivity|].
  apply (proj2 (proj2 (a_result_or_an_error background token ""
                         (world [unauthorized])))).
  reflexivity.
Defined.


Lemma a_request_has_two_headers_witness :
  ∃ r, issued (SignInAttempts background token "") (world [ok "{}"]) = [r]
       ∧ Hdr r !! "Authorization" = Some ["Bearer jwt:https://events.example"]
       ∧ Hdr r !! "User-Agent" = Some ["1Password Events API Beats / 0.0.0"]
       ∧ Hdr r !! "Content-Type" = None.
Proof.
  exists (api_request background http_MethodPost
            "https://events.example/api/v1/signinattempts" token (Some "")).
  split; [vm_compute; reflexivity|].
  destruct (proj1 (proj2 (a_request_has_two_headers background token ""
                            (world [ok "{}"])))
              (api_request background http_MethodPost
                 "https://events.example/api/v1/signinattempts" token
                 (Some ""))) as (Hhdr & _).
  { vm_compute. constructor. }
  rewrite Hhdr. repeat split; reflexivity.
Defined.

Lemma Introspect_and_ItemUsages_twice_witness :
  fst (ItemUsages background token "cursor"
         (snd (ItemUsages background token "cursor"
                 (world [ok "page"; ok "page"]))))
  = fst (ItemUsages background token "cursor"
           (world [ok "page"; ok "page"])).
Proof.
  apply Introspect_and_ItemUsages_twice. intros r. reflexivity.
Defined.

Lemma newAPIRequest_only_builds_witness :
  ∃ r, fst (newAPIRequest background "" token "/api/auth/introspect" None
              (world []))
       = Returned (Some r, None)
       ∧ Method r = "GET" ∧ Body r = None.
Proof.
  exists (api_request background "GET"
            "https://events.example/api/auth/introspect" token None).
  split; [vm_compute; reflexivity|].
  destruct (proj2 (newAPIRequest_only_builds background "" token
                     "/api/auth/introspect" None (world []))
              (api_request background "GET"
                 "https://events.example/api/auth/introspect" token None)
              None) as (_ & _ & Hmethod & Hbody & _).
  { vm_compute. reflexivity. }
  split; [exact Hmethod|exact Hbody].
Defined.

Lemma SignInAttempt_round_trip_witness :
  reads_back Samples.morning
  ∧ ∃ j, Marshal_SignInAttempt Samples.blocked_attempt = inr j
         ∧ Unmarshal_SignInAttempt j = (Samples.blocked_attempt, None).
Proof.
  assert (reads_back Samples.morning) as Hback.
  { exists (JString Samples.morning).
    split; [reflexivity|]. split; [discriminate|reflexivity]. }
  split; [exact Hback|].
  exact (SignInAttempt_round_trip Samples.blocked_attempt Hback).
Defined.

Lemma ItemUsage_round_trip_witness :
  ∃ j, Marshal_ItemUsage Samples.used_item = inr j
       ∧ Unmarshal_ItemUsage j = (Samples.used_item, None).
Proof.
  assert (reads_back Samples.morning) as Hback.
  { exists (JString Samples.morning).
    split; [reflexivity|]. split; [discriminate|reflexivity]. }
  assert (0 ≤ 4294967295 ≤ math_MaxUint32)%Z as Hversion.
  { unfold math_MaxUint32. lia. }
  exact (ItemUsage_round_trip Samples.used_item Hback Hversion).
Defined.

Lemma details_present_witness :
  Forall member_ok [("uuid", JString "a1"); ("details", JNull)]
  ∧ SignInAttempt_Details
      (fst (Unmarshal_SignInAttempt
              (JObject [("uuid", JString "a1"); ("details", JNull);
                        ("details", JObject [("value", JString "Europe")])])))
    = Some {| SignInAttemptDetails_Value := "Europe" |}.
Proof.
  assert (Forall member_ok [("uuid", JString "a1"); ("details", JNull)])
    as Hok.
  { constructor; [reflexivity|]. constructor; [reflexivity|]. constructor. }
  split; [exact Hok|].
  exact (proj1 (details_present _ "Europe" Hok)).
Defined.

Lemma NewClient_skips_verification_on_request_witness :
  http_Client_Transport (retry_HTTPClient retryablehttp_NewClient)
  = Some (http_Transport_RoundTripper pooled_transport)
  ∧ skips_verification pooled_client = false
  ∧ ∃ c, fst (NewClient beat_logger true) = Some c
         ∧ skips_verification (HTTPClient c) = true.
Proof.
  split; [reflexivity|]. split; [reflexivity|].
  destruct (NewClient_skips_verification_on_request beat_logger)
    as (_ & Hskip & _).
  destruct (Hskip pooled_transport eq_refl) as (Hinner & Hskips).
  eexists. split; [reflexivity|]. exact Hskips.
Defined.
